(** * FlowFilter: orchestration of the optical-flow filter pipeline

    Shallow embedding of [src/gpu/flowfilter.cu] (namespace
    [flowfilter::gpu], class [FlowFilter]) and the properties of its
    construction, per-frame execution, first-load bootstrap and parameter
    surface. *)

From Stdlib Require Import ZArith QArith Qround Lia List.
From Stdlib Require Import Floats.SpecFloat.
From stdpp Require Import base option list gmap strings.

Local Open Scope Z_scope.

(** ** The C [float] and [int] types

    [maxflow] and [gamma] are C [float]s: IEEE-754 binary32, here the
    standard library's [spec_float] at precision 24 and [emax] 128.  The
    only arithmetic [FlowFilter] does on them is [int(ceilf(maxflow))]. *)

Module Float32.

Definition prec : Z := 24.
Definition emax : Z := 128.

Definition float : Type := spec_float.

(** [is_float x]: [x] is a binary32 datum (canonical mantissa and exponent
    in range). *)
Definition is_float (x : float) : bool := valid_binary prec emax x.

(** The literal [1.0] converted to [float]. *)
Definition one : float := S754_finite false 8388608 (-23).

(** The real value of a finite float, as a rational; [None] for the
    infinities and NaN. *)
Definition to_Q (x : float) : option Q :=
  match x with
  | S754_zero _ => Some (inject_Z 0)
  | S754_finite s m e =>
      Some match e with
           | Zneg k => Qmake (cond_Zopp s (Zpos m)) (2 ^ k)%positive
           | _ => inject_Z (cond_Zopp s (Zpos m) * 2 ^ e)
           end
  | _ => None
  end.

(** [ceilf] of <cmath>: the least integral float not below [x]; zeros,
    infinities and NaN are returned as they are, and so is a float whose
    exponent is not negative (it is integral already).  A negative argument
    above -1 gives the negative zero. *)
Definition ceilf (x : float) : float :=
  match x with
  | S754_finite s m (Zneg k) =>
      binary_normalize prec emax (- ((- cond_Zopp s (Zpos m)) / 2 ^ Zpos k)) 0 s
  | _ => x
  end.

Definition INT_MIN : Z := -2147483648.
Definition INT_MAX : Z := 2147483647.

(** The integral part of a finite float (rounding toward zero). *)
Definition truncate (x : float) : option Z :=
  match x with
  | S754_zero _ => Some 0
  | S754_finite s m e =>
      Some (cond_Zopp s match e with
                        | Zneg k => Zpos m / 2 ^ Zpos k
                        | _ => Zpos m * 2 ^ e
                        end)
  | _ => None
  end.

(** The conversion [int(x)] of a [float].  C++ defines it when the
    truncated value fits an [int]; for the other arguments (NaN, the
    infinities, magnitudes from 2^31 on) the result is the "integer
    indefinite" value [INT_MIN] that the conversion instruction of the
    x86-64 host ([cvttss2si]) delivers. *)
Definition to_int (x : float) : Z :=
  match truncate x with
  | Some z => if (INT_MIN <=? z) && (z <=? INT_MAX) then z else INT_MIN
  | None => INT_MIN
  end.

End Float32.

(** ** The device, the console and exceptions *)

(** Device pointers, and the contents of a block. *)
Definition addr : Type := positive.
Abbreviation bytes := (list Byte.byte).

Inductive stage_id : Type :=
  | ImageModelStage
  | FlowPropagatorStage
  | FlowUpdateStage
  | FlowSmootherStage.

(** The value a stage's parameter setter is called with: [setGamma] and
    [setMaxFlow] of the update stage, [setIterations] of the smoother and
    of the propagator. *)
Inductive setting : Type :=
  | Gamma (gamma : Float32.float)
  | MaxFlow (maxflow : Float32.float)
  | Iterations (N : Z).

(** What a run leaves behind besides buffer contents: the timing calls of
    the [Stage] base class, the entry of each stage's [compute()] and of
    each stage's parameter setter, and the lines written to [std::cout]
    and [std::cerr] (a message and the integer streamed after it). *)
Inductive event : Type :=
  | StartTiming
  | StopTiming
  | StageCompute (s : stage_id)
  | StageSet (s : stage_id) (p : setting)
  | Cout (msg : string)
  | Cerr (msg : string) (n : Z).

#[global] Instance stage_id_eq_dec : EqDecision stage_id.
Proof. solve_decision. Defined.

#[global] Instance float_eq_dec : EqDecision Float32.float.
Proof. unfold Float32.float. solve_decision. Defined.

#[global] Instance setting_eq_dec : EqDecision setting.
Proof. solve_decision. Defined.

#[global] Instance event_eq_dec : EqDecision event.
Proof. solve_decision. Defined.

(** [ConstructionError] is the [std::exception] thrown by the constructor
    on a dimension that is not positive; [ShapeMismatch] and [DeviceError]
    are the failures of the buffer primitives. *)
Inductive exn : Type :=
  | ConstructionError
  | ShapeMismatch
  | DeviceError.

(** Device memory is a store of byte blocks; [brk] is the next pointer the
    allocator hands out.  A block that is freed leaves the store, and its
    pointer is not handed out again. *)
Record world : Type := World {
  devmem : gmap addr (bytes);
  brk : addr;
  out : list event
}.

(** A method either returns, or throws; the world as it is at that point
    is kept in both cases.  No method of [FlowFilter] assigns a member
    before a statement that can throw, so after a throw the object is the
    one the method was called on (and a constructor that throws leaves no
    object). *)
Inductive outcome (A : Type) : Type :=
  | Ok (a : A) (w : world)
  | Throw (e : exn) (w : world).
Arguments Ok {A} a w.
Arguments Throw {A} e w.

Definition M (A : Type) : Type := world -> outcome A.

#[global] Instance M_ret : MRet M := fun A a w => Ok a w.

#[global] Instance M_bind : MBind M := fun A B k c w =>
  match c w with
  | Ok a w' => k a w'
  | Throw e w' => Throw e w'
  end.

Definition throw {A : Type} (e : exn) : M A := fun w => Throw e w.

Definition emit (ev : event) : M unit :=
  fun w => Ok tt {| devmem := devmem w; brk := brk w; out := out w ++ [ev] |}.

(** Modelled from the spec: the timing instrumentation of the [Stage] base
    class, which is declared outside this file; the spec gives it as a
    start and a stop that bracket the work and touch nothing else. *)
Definition startTiming : M unit := emit StartTiming.
Definition stopTiming : M unit := emit StopTiming.

(** Modelled from the spec: the numerical kernels of the four stages, which
    the spec leaves opaque.  Each maps the contents of the buffers its stage
    consumes (and the stage's scalar parameters, after the image height and
    width) to the contents of the buffers the stage produces.
    [uninitialized] gives the bytes found in a freshly allocated block. *)
Class Device : Type := {
  uninitialized : addr -> nat -> bytes;
  imageModel_kernel : Z -> Z -> bytes -> bytes * bytes;
  propagator_kernel : Z -> Z -> Z -> bytes -> bytes;
  update_kernel :
    Z -> Z -> Float32.float -> Float32.float ->
    bytes -> bytes -> bytes -> bytes -> bytes * bytes;
  smoother_kernel : Z -> Z -> Z -> bytes -> bytes
}.

(** ** Host images ([flowfilter::image_t]) *)

Module image_t.

Record t : Type := mk {
  height : Z;
  width : Z;
  depth : Z;
  itemSize : Z;
  data : bytes
}.

Definition with_data (b : bytes) (img : t) : t :=
  mk (height img) (width img) (depth img) (itemSize img) b.

End image_t.

(** ** Device buffers ([GPUImage])

    A [GPUImage] is a handle: copies of it share the device block. *)

Module GPUImage.

Record t : Type := mk {
  height : Z;
  width : Z;
  depth : Z;
  itemSize : Z;
  ptr_dev : option addr
}.

Definition sizeBytes (g : t) : nat :=
  Z.to_nat (height g * width g * depth g * itemSize g).

Definition contents (g : t) (w : world) : option bytes :=
  a ← ptr_dev g; devmem w !! a.

Definition read (g : t) : M bytes :=
  fun w =>
    match contents g w with
    | Some b => Ok b w
    | None => Throw DeviceError w
    end.

Definition write (b : bytes) (g : t) : M unit :=
  fun w =>
    match ptr_dev g with
    | Some a =>
        match devmem w !! a with
        | Some _ =>
            Ok tt {| devmem := <[a := b]> (devmem w); brk := brk w; out := out w |}
        | None => Throw DeviceError w
        end
    | None => Throw DeviceError w
    end.

Definition compareShape (img : image_t.t) (g : t) : bool :=
  (height g =? image_t.height img) && (width g =? image_t.width img)
  && (depth g =? image_t.depth img) && (itemSize g =? image_t.itemSize img).

(** Modelled from the spec: buffer handles share ownership of their block
    by reference counting.  [release g] is what the destruction of the last
    handle to a block does: the block is freed.  A null handle holds
    nothing. *)
Definition release (g : t) : M unit :=
  fun w =>
    match ptr_dev g with
    | Some a => Ok tt {| devmem := delete a (devmem w); brk := brk w; out := out w |}
    | None => Ok tt w
    end.

Section Primitives.
Context {D : Device}.

(** Modelled from the spec: [GPUImage(height, width, depth, itemSize)]
    allocates a device block of that shape. *)
Definition make (h w d s : Z) : M t :=
  fun wd =>
    let a := brk wd in
    let g := mk h w d s (Some a) in
    Ok g {| devmem := <[a := uninitialized a (sizeBytes g)]> (devmem wd);
            brk := Pos.succ a;
            out := out wd |}.

(** Modelled from the spec: [upload] (host to device) fails with a
    ShapeMismatch error when the host image's shape differs from the
    buffer's, and copies nothing then. *)
Definition upload (img : image_t.t) (g : t) : M unit :=
  if compareShape img g then write (image_t.data img) g else throw ShapeMismatch.

(** Modelled from the spec: [download] (device to host), with the same
    shape check. *)
Definition download (img : image_t.t) (g : t) : M image_t.t :=
  if compareShape img g
  then b ← read g; mret (image_t.with_data b img)
  else throw ShapeMismatch.

(** Modelled from the spec: [g.copyFrom(src)], a device-to-device copy. *)
Definition copyFrom (src : t) (g : t) : M unit :=
  b ← read src; write b g.

(** Modelled from the spec: [clear] zero-fills the block. *)
Definition clear (g : t) : M unit :=
  write (replicate (sizeBytes g) Byte.x00) g.

End Primitives.

(** [zeroed g w]: the block of [g] is allocated and holds only zero bytes. *)
Definition zeroed (g : t) (w : world) : Prop :=
  contents g w = Some (replicate (sizeBytes g) Byte.x00).

End GPUImage.

(** ** The four stages

    The stage classes are declared outside this file.  Each is modelled
    from the spec: the stage holds handles to the buffers it consumes,
    owns the buffers it produces (allocated by its constructor with the
    shape of its input), and its [compute()] overwrites the produced
    buffers with the kernel's result.  Scalar parameters are stored and
    read back by plain accessors. *)

Module ImageModel.

Record t : Type := mk {
  inputImage : GPUImage.t;
  imageConstant : GPUImage.t;
  imageGradient : GPUImage.t
}.

Definition getImageConstant (m : t) : GPUImage.t := imageConstant m.
Definition getImageGradient (m : t) : GPUImage.t := imageGradient m.

Section Stage.
Context {D : Device}.

(** Modelled from the spec: [ImageModel(inputImage)] allocates the image
    constant (one float channel) and the image gradient (two). *)
Definition make (input : GPUImage.t) : M t :=
  c ← GPUImage.make (GPUImage.height input) (GPUImage.width input) 1 4;
  g ← GPUImage.make (GPUImage.height input) (GPUImage.width input) 2 4;
  mret (mk input c g).

(** Modelled from the spec: [compute()] derives the image constant and the
    image gradient from the input image. *)
Definition compute (m : t) : M unit :=
  emit (StageCompute ImageModelStage);;
  img ← GPUImage.read (inputImage m);
  let r := imageModel_kernel (GPUImage.height (inputImage m))
                             (GPUImage.width (inputImage m)) img in
  GPUImage.write (fst r) (imageConstant m);;
  GPUImage.write (snd r) (imageGradient m).

End Stage.

End ImageModel.

Module FlowUpdate.

Record t : Type := mk {
  inputFlow : GPUImage.t;
  inputImage : GPUImage.t;
  inputImageGradient : GPUImage.t;
  flowUpdated : GPUImage.t;
  imageUpdated : GPUImage.t;
  gamma : Float32.float;
  maxflow : Float32.float
}.

Definition getUpdatedFlow (u : t) : GPUImage.t := flowUpdated u.
Definition getUpdatedImage (u : t) : GPUImage.t := imageUpdated u.
Definition getGamma (u : t) : Float32.float := gamma u.
Definition getMaxFlow (u : t) : Float32.float := maxflow u.

Definition setGamma (g : Float32.float) (u : t) : t :=
  mk (inputFlow u) (inputImage u) (inputImageGradient u)
     (flowUpdated u) (imageUpdated u) g (maxflow u).

Definition setMaxFlow (v : Float32.float) (u : t) : t :=
  mk (inputFlow u) (inputImage u) (inputImageGradient u)
     (flowUpdated u) (imageUpdated u) (gamma u) v.

(** Rebinds the flow the stage consumes: a handle swap, no data moves. *)
Definition setInputFlow (flow : GPUImage.t) (u : t) : t :=
  mk flow (inputImage u) (inputImageGradient u)
     (flowUpdated u) (imageUpdated u) (gamma u) (maxflow u).

Section Stage.
Context {D : Device}.

(** Modelled from the spec: [FlowUpdate(inputFlow, inputImage,
    inputImageGradient, gamma, maxflow)] allocates the updated flow (two
    float channels) and the updated image (one). *)
Definition make (flow img grad : GPUImage.t) (g v : Float32.float) : M t :=
  fu ← GPUImage.make (GPUImage.height flow) (GPUImage.width flow) 2 4;
  iu ← GPUImage.make (GPUImage.height flow) (GPUImage.width flow) 1 4;
  mret (mk flow img grad fu iu g v).

(** Modelled from the spec: [compute()] combines the input flow with the
    image constant, the image gradient and the previous updated image into
    the updated flow and the new updated image. *)
Definition compute (u : t) : M unit :=
  emit (StageCompute FlowUpdateStage);;
  flow ← GPUImage.read (inputFlow u);
  img ← GPUImage.read (inputImage u);
  grad ← GPUImage.read (inputImageGradient u);
  old ← GPUImage.read (imageUpdated u);
  let r := update_kernel (GPUImage.height (inputFlow u))
                         (GPUImage.width (inputFlow u))
                         (gamma u) (maxflow u) flow img grad old in
  GPUImage.write (fst r) (flowUpdated u);;
  GPUImage.write (snd r) (imageUpdated u).

End Stage.

End FlowUpdate.

Module FlowSmoother.

Record t : Type := mk {
  inputFlow : GPUImage.t;
  smoothedFlow : GPUImage.t;
  iterations : Z
}.

Definition getSmoothedFlow (s : t) : GPUImage.t := smoothedFlow s.
Definition getIterations (s : t) : Z := iterations s.
Definition setIterations (N : Z) (s : t) : t := mk (inputFlow s) (smoothedFlow s) N.

Section Stage.
Context {D : Device}.

(** Modelled from the spec: [FlowSmoother(inputFlow, iterations)]
    allocates the smoothed flow. *)
Definition make (flow : GPUImage.t) (N : Z) : M t :=
  sf ← GPUImage.make (GPUImage.height flow) (GPUImage.width flow) 2 4;
  mret (mk flow sf N).

(** Modelled from the spec: [compute()] diffuses the input flow for the
    configured number of iterations into the smoothed flow. *)
Definition compute (s : t) : M unit :=
  emit (StageCompute FlowSmootherStage);;
  flow ← GPUImage.read (inputFlow s);
  GPUImage.write
    (smoother_kernel (GPUImage.height (inputFlow s))
                     (GPUImage.width (inputFlow s)) (iterations s) flow)
    (smoothedFlow s).

End Stage.

End FlowSmoother.

Module FlowPropagator.

Record t : Type := mk {
  inputFlow : GPUImage.t;
  propagatedFlow : GPUImage.t;
  iterations : Z
}.

Definition getPropagatedFlow (p : t) : GPUImage.t := propagatedFlow p.
Definition getIterations (p : t) : Z := iterations p.
Definition setIterations (N : Z) (p : t) : t := mk (inputFlow p) (propagatedFlow p) N.

Section Stage.
Context {D : Device}.

(** Modelled from the spec: [FlowPropagator(inputFlow, iterations)]
    allocates the propagated flow. *)
Definition make (flow : GPUImage.t) (N : Z) : M t :=
  pf ← GPUImage.make (GPUImage.height flow) (GPUImage.width flow) 2 4;
  mret (mk flow pf N).

(** Modelled from the spec: [compute()] warps the input flow forward by
    the configured number of iterations into the propagated flow. *)
Definition compute (p : t) : M unit :=
  emit (StageCompute FlowPropagatorStage);;
  flow ← GPUImage.read (inputFlow p);
  GPUImage.write
    (propagator_kernel (GPUImage.height (inputFlow p))
                       (GPUImage.width (inputFlow p)) (iterations p) flow)
    (propagatedFlow p).

End Stage.

End FlowPropagator.

(** ** The orchestrator ([FlowFilter]) *)

Module FlowFilter.

Record t : Type := mk {
  __height : Z;
  __width : Z;
  __configured : bool;
  __firstLoad : bool;
  __inputImage : GPUImage.t;
  __imageModel : ImageModel.t;
  __update : FlowUpdate.t;
  __smoother : FlowSmoother.t;
  __propagator : FlowPropagator.t
}.

(** *** Parameter surface *)

Definition getFlow (f : t) : GPUImage.t :=
  FlowUpdate.getUpdatedFlow (__update f).

Definition getGamma (f : t) : Float32.float :=
  FlowUpdate.getGamma (__update f).

Definition setGamma (gamma : Float32.float) (f : t) : t :=
  mk (__height f) (__width f) (__configured f) (__firstLoad f)
     (__inputImage f) (__imageModel f)
     (FlowUpdate.setGamma gamma (__update f))
     (__smoother f) (__propagator f).

Definition getMaxFlow (f : t) : Float32.float :=
  FlowUpdate.getMaxFlow (__update f).

Definition setMaxFlow (maxflow : Float32.float) (f : t) : t :=
  mk (__height f) (__width f) (__configured f) (__firstLoad f)
     (__inputImage f) (__imageModel f)
     (FlowUpdate.setMaxFlow maxflow (__update f))
     (__smoother f)
     (FlowPropagator.setIterations
        (Float32.to_int (Float32.ceilf maxflow)) (__propagator f)).

Definition getSmoothIterations (f : t) : Z :=
  FlowSmoother.getIterations (__smoother f).

Definition setSmoothIterations (N : Z) (f : t) : t :=
  mk (__height f) (__width f) (__configured f) (__firstLoad f)
     (__inputImage f) (__imageModel f) (__update f)
     (FlowSmoother.setIterations N (__smoother f))
     (__propagator f).

Definition getPropagationIterations (f : t) : Z :=
  FlowPropagator.getIterations (__propagator f).

Definition height (f : t) : Z := __height f.

Definition width (f : t) : Z := __width f.

Definition set_firstLoad (b : bool) (f : t) : t :=
  mk (__height f) (__width f) (__configured f) b
     (__inputImage f) (__imageModel f) (__update f)
     (__smoother f) (__propagator f).

(** *** The setters as calls

    [setGamma], [setMaxFlow] and [setSmoothIterations] above give the
    object after the call.  The call itself enters the setter of the stage
    it forwards to ([setMaxFlow] enters two, the update's and then the
    propagator's); as for a stage's [compute()], each entry is logged, with
    the value passed. *)

Definition call_setGamma (gamma : Float32.float) (f : t) : M t :=
  emit (StageSet FlowUpdateStage (Gamma gamma));;
  mret (setGamma gamma f).

Definition call_setMaxFlow (maxflow : Float32.float) (f : t) : M t :=
  emit (StageSet FlowUpdateStage (MaxFlow maxflow));;
  emit (StageSet FlowPropagatorStage
          (Iterations (Float32.to_int (Float32.ceilf maxflow))));;
  mret (setMaxFlow maxflow f).

Definition call_setSmoothIterations (N : Z) (f : t) : M t :=
  emit (StageSet FlowSmootherStage (Iterations N));;
  mret (setSmoothIterations N f).

Section Methods.
Context {D : Device}.

(** *** Construction *)

(** [configure()]: every member but the two dimensions is assigned.  The
    local [dummyFlow] is destroyed when [configure()] returns; the update
    stage, the only other holder of it, was rebound to the propagated flow
    by then, so the block of the dummy is freed. *)
Definition configure (f : t) : M t :=
  inputImage ← GPUImage.make (__height f) (__width f) 1 1;
  imageModel ← ImageModel.make inputImage;
  dummyFlow ← GPUImage.make (__height f) (__width f) 2 4;
  update ← FlowUpdate.make dummyFlow
              (ImageModel.getImageConstant imageModel)
              (ImageModel.getImageGradient imageModel)
              Float32.one Float32.one;
  smoother ← FlowSmoother.make (FlowUpdate.getUpdatedFlow update) 1;
  propagator ← FlowPropagator.make (FlowSmoother.getSmoothedFlow smoother) 1;
  let update :=
    FlowUpdate.setInputFlow (FlowPropagator.getPropagatedFlow propagator) update in
  GPUImage.clear (FlowPropagator.getPropagatedFlow propagator);;
  GPUImage.clear (FlowUpdate.getUpdatedFlow update);;
  GPUImage.clear (FlowUpdate.getUpdatedImage update);;
  GPUImage.clear (FlowSmoother.getSmoothedFlow smoother);;
  GPUImage.release dummyFlow;;
  mret (mk (__height f) (__width f) true true
           inputImage imageModel update smoother propagator).

(** [FlowFilter()].  The argument [this] is the object as the default
    constructors of its members leave it (those are declared outside this
    file); [__firstLoad] is not assigned and keeps whatever [this] holds. *)
Definition new_default (this : t) : M t :=
  mret (mk 0 0 false (__firstLoad this)
           (__inputImage this) (__imageModel this) (__update this)
           (__smoother this) (__propagator this)).

(** [FlowFilter(height, width, smoothIterations, maxflow, gamma)]. *)
Definition new (height width smoothIterations : Z)
    (maxflow gamma : Float32.float) (this : t) : M t :=
  if height <=? 0 then
    emit (Cerr "ERROR: FlowFilter::FlowFilter(): height should be greater than zero: "
               height);;
    throw ConstructionError
  else if width <=? 0 then
    emit (Cerr "ERROR: FlowFilter::FlowFilter(): width should be greater than zero: "
               width);;
    throw ConstructionError
  else
    f ← configure (mk height width false (__firstLoad this)
                      (__inputImage this) (__imageModel this) (__update this)
                      (__smoother this) (__propagator this));
    f ← call_setGamma gamma f;
    f ← call_setMaxFlow maxflow f;
    call_setSmoothIterations smoothIterations f.

(** [FlowFilter(height, width)]. *)
Definition new_hw (height width : Z) (this : t) : M t :=
  new height width 1 Float32.one Float32.one this.

(** *** Per-frame execution *)

Definition compute (f : t) : M t :=
  startTiming;;
  ImageModel.compute (__imageModel f);;
  FlowPropagator.compute (__propagator f);;
  FlowUpdate.compute (__update f);;
  FlowSmoother.compute (__smoother f);;
  stopTiming;;
  mret f.

(** *** Image loading and the first-load bootstrap *)

Definition loadImage (image : image_t.t) (f : t) : M t :=
  GPUImage.upload image (__inputImage f);;
  if __firstLoad f then
    emit (Cout "FlowFilter::loadImage(): fisrt load");;
    ImageModel.compute (__imageModel f);;
    let imConstant := ImageModel.getImageConstant (__imageModel f) in
    GPUImage.copyFrom imConstant (FlowUpdate.getUpdatedImage (__update f));;
    mret (set_firstLoad false f)
  else mret f.

Definition downloadFlow (flow : image_t.t) (f : t) : M image_t.t :=
  GPUImage.download flow (FlowSmoother.getSmoothedFlow (__smoother f)).

Definition downloadImage (image : image_t.t) (f : t) : M image_t.t :=
  GPUImage.download image (FlowUpdate.getUpdatedImage (__update f)).

End Methods.

(** *** Sequences of calls on one instance

    The calls a client makes between construction and destruction; the
    accessors are left out, they change nothing. *)
Inductive call : Type :=
  | LoadImage (image : image_t.t)
  | Compute
  | DownloadFlow (flow : image_t.t)
  | DownloadImage (image : image_t.t)
  | SetGamma (gamma : Float32.float)
  | SetMaxFlow (maxflow : Float32.float)
  | SetSmoothIterations (N : Z).

Definition is_load (c : call) : bool :=
  match c with
  | LoadImage _ => true
  | _ => false
  end.

Section Runs.
Context {D : Device}.

Definition invoke (c : call) (f : t) : M t :=
  match c with
  | LoadImage image => loadImage image f
  | Compute => compute f
  | DownloadFlow flow => downloadFlow flow f;; mret f
  | DownloadImage image => downloadImage image f;; mret f
  | SetGamma gamma => call_setGamma gamma f
  | SetMaxFlow maxflow => call_setMaxFlow maxflow f
  | SetSmoothIterations N => call_setSmoothIterations N f
  end.

(** A run stops at the first call that throws. *)
Fixpoint run (cs : list call) (f : t) : M t :=
  match cs with
  | [] => mret f
  | c :: cs' => f' ← invoke c f; run cs' f'
  end.

End Runs.

(** *** The wiring of a configured instance

    The seven buffers of the pipeline, in allocation order. *)
Definition buffers (f : t) : list GPUImage.t :=
  [ __inputImage f;
    ImageModel.imageConstant (__imageModel f);
    ImageModel.imageGradient (__imageModel f);
    FlowUpdate.flowUpdated (__update f);
    FlowUpdate.imageUpdated (__update f);
    FlowSmoother.smoothedFlow (__smoother f);
    FlowPropagator.propagatedFlow (__propagator f) ].

(** [wired f w]: [f] is configured in the world [w].  The stages form the
    cycle smoother -> propagator -> update -> smoother over seven distinct
    live device blocks, every buffer has the configured dimensions, and
    the propagation iteration count is the one derived from [maxflow]. *)
Record wired (f : t) (w : world) : Prop := Wired {
  wired_configured : __configured f = true;
  wired_shapes :
    Forall (fun g => GPUImage.height g = __height f /\ GPUImage.width g = __width f)
           (buffers f);
  wired_model_input : ImageModel.inputImage (__imageModel f) = __inputImage f;
  wired_update_flow :
    FlowUpdate.inputFlow (__update f) = FlowPropagator.propagatedFlow (__propagator f);
  wired_update_image :
    FlowUpdate.inputImage (__update f) = ImageModel.imageConstant (__imageModel f);
  wired_update_gradient :
    FlowUpdate.inputImageGradient (__update f)
    = ImageModel.imageGradient (__imageModel f);
  wired_smoother_input :
    FlowSmoother.inputFlow (__smoother f) = FlowUpdate.flowUpdated (__update f);
  wired_propagator_input :
    FlowPropagator.inputFlow (__propagator f)
    = FlowSmoother.smoothedFlow (__smoother f);
  wired_live : Forall (fun g => is_Some (GPUImage.contents g w)) (buffers f);
  wired_distinct : NoDup (GPUImage.ptr_dev <$> buffers f);
  wired_iterations :
    FlowPropagator.iterations (__propagator f)
    = Float32.to_int (Float32.ceilf (FlowUpdate.maxflow (__update f)))
}.

(** The number of first-load bootstraps a console log records. *)
Definition bootstraps (log : list event) : nat :=
  length (filter (fun ev => ev = Cout "FlowFilter::loadImage(): fisrt load") log).

(** The three scalar parameters a client sets, as the getters show them,
    and what a call does to them. *)
Definition parameters (f : t) : Float32.float * Float32.float * Z :=
  (getGamma f, getMaxFlow f, getSmoothIterations f).

Definition set_parameter (p : Float32.float * Float32.float * Z) (c : call)
    : Float32.float * Float32.float * Z :=
  match c with
  | SetGamma gamma => (gamma, snd (fst p), snd p)
  | SetMaxFlow maxflow => (fst (fst p), maxflow, snd p)
  | SetSmoothIterations N => (fst p, N)
  | _ => p
  end.

End FlowFilter.

(** [no_alloc w w']: from [w] to [w'] no device block was allocated or
    released. *)
Definition no_alloc (w w' : world) : Prop :=
  brk w' = brk w /\ dom (devmem w') = dom (devmem w).

(** The log of one [compute()] cycle. *)
Definition cycle_log : list event :=
  [ StartTiming;
    StageCompute ImageModelStage;
    StageCompute FlowPropagatorStage;
    StageCompute FlowUpdateStage;
    StageCompute FlowSmootherStage;
    StopTiming ].

(** ** A concrete device and concrete inputs, for closed instances *)

Module Sample.

(** A device whose fresh blocks hold [0xff] bytes and whose kernels copy
    their inputs around. *)
Definition device : Device := {|
  uninitialized := fun _ n => replicate n Byte.xff;
  imageModel_kernel := fun _ _ img => (img, img ++ img);
  propagator_kernel := fun _ _ _ flow => flow;
  update_kernel := fun _ _ _ _ flow img _ _ => (flow, img);
  smoother_kernel := fun _ _ _ flow => flow
|}.

Definition null : GPUImage.t := GPUImage.mk 0 0 0 0 None.

(** An object before any constructor body has run. *)
Definition this : FlowFilter.t :=
  FlowFilter.mk 7 7 true false null
    (ImageModel.mk null null null)
    (FlowUpdate.mk null null null null null (S754_zero false) (S754_zero false))
    (FlowSmoother.mk null null 0)
    (FlowPropagator.mk null null 0).

(** The same object with its dimensions set to 2x2, as the constructor
    hands it to [configure()]. *)
Definition sized : FlowFilter.t :=
  FlowFilter.mk 2 2 false false null
    (ImageModel.mk null null null)
    (FlowUpdate.mk null null null null null (S754_zero false) (S754_zero false))
    (FlowSmoother.mk null null 0)
    (FlowPropagator.mk null null 0).

Definition boot : world := World ∅ 1%positive [].

(** A 2x2 single-channel byte image, every pixel 100. *)
Definition frame : image_t.t :=
  image_t.mk 2 2 1 1 [Byte.x64; Byte.x64; Byte.x64; Byte.x64].

(** A 3x2 image. *)
Definition wide_frame : image_t.t :=
  image_t.mk 2 3 1 1 [Byte.x64; Byte.x64; Byte.x64; Byte.x64; Byte.x64; Byte.x64].

(** A host buffer for a 2x2 flow field. *)
Definition flow_buffer : image_t.t := image_t.mk 2 2 2 4 [].

(** A second 2x2 image, every pixel 200, and a host buffer for a 2x2
    single-channel float image. *)
Definition frame2 : image_t.t :=
  image_t.mk 2 2 1 1 [Byte.xc8; Byte.xc8; Byte.xc8; Byte.xc8].

Definition image_buffer : image_t.t := image_t.mk 2 2 1 4 [].

(** The floats 0.5, 3.5, 4.0 and 2^31. *)
Definition half : Float32.float := S754_finite false 8388608 (-24).
Definition three_and_a_half : Float32.float := S754_finite false 14680064 (-22).
Definition four : Float32.float := S754_finite false 8388608 (-21).
Definition two_pow_31 : Float32.float := S754_finite false 8388608 8.

End Sample.

(** * Facts about the float model *)

Module Float32Facts.

Import Float32.

Lemma digits2_pos_upper (m : positive) : Zpos m < 2 ^ Zpos (digits2_pos m).
Proof.
  induction m as [m IH|m IH|]; simpl; try (rewrite Pos2Z.inj_succ, Z.pow_succ_r by lia); lia.
Qed.

Lemma iter_xO_value (p n : positive) : Zpos (Pos.iter xO p n) = Zpos p * 2 ^ Zpos n.
Proof.
  revert p. induction n using Pos.peano_ind; intros p.
  - simpl. lia.
  - rewrite Pos.iter_succ, Pos2Z.inj_succ, Z.pow_succ_r by lia.
    change (Zpos (Pos.iter xO p n)~0) with (2 * Zpos (Pos.iter xO p n)). rewrite IHn. lia.
Qed.

Lemma iter_xO_digits (p n : positive) :
  digits2_pos (Pos.iter xO p n) = (digits2_pos p + n)%positive.
Proof.
  induction n using Pos.peano_ind.
  - simpl. lia.
  - rewrite Pos.iter_succ. simpl. rewrite IHn. lia.
Qed.

(** A mantissa of exactly 24 digits is not shifted. *)
Lemma shr_fexp_full (m : positive) (e : Z) :
  Zpos (digits2_pos m) = 24 -> -149 <= e ->
  shr_fexp prec emax (Zpos m) e loc_Exact =
  ({| shr_m := Zpos m; shr_r := false; shr_s := false |}, e).
Proof.
  intros Hd He. unfold shr_fexp, fexp, emin, prec, emax. simpl Zdigits2.
  rewrite Hd. replace (Z.max (24 + e - 24) (3 - 128 - 24) - e) with 0 by lia.
  reflexivity.
Qed.

Lemma binary_round_aux_full (s : bool) (m : positive) (e : Z) :
  Zpos (digits2_pos m) = 24 -> -149 <= e <= 104 ->
  binary_round_aux prec emax s (Zpos m) e loc_Exact = S754_finite s m e.
Proof.
  intros Hd He. unfold binary_round_aux.
  rewrite shr_fexp_full by lia. cbn [shr_m loc_of_shr_record round_nearest_even].
  rewrite shr_fexp_full by lia. cbn [shr_m].
  unfold emax, prec. replace (e <=? 128 - 24) with true; [done|].
  symmetry. apply Z.leb_le. lia.
Qed.

Lemma binary_round_small (s : bool) (p : positive) :
  Zpos (digits2_pos p) <= 24 ->
  truncate (binary_round prec emax s p 0) = Some (cond_Zopp s (Zpos p)).
Proof.
  intros Hd. unfold binary_round, shl_align, fexp, emin, prec, emax.
  replace (Z.max (Z.pos (digits2_pos p) + 0 - 24) (3 - 128 - 24) - 0)
    with (Zpos (digits2_pos p) - 24) by lia.
  destruct (Z.pos (digits2_pos p) - 24) as [|q|q] eqn:Hq; try lia.
  - rewrite binary_round_aux_full by lia. simpl. do 2 f_equal. lia.
  - replace (Z.max _ _) with (Zneg q) by lia.
    rewrite binary_round_aux_full; [|rewrite iter_xO_digits; lia|lia].
    simpl. do 2 f_equal. rewrite iter_xO_value. apply Z.div_mul. lia.
Qed.

Lemma digits2_pos_lower (m : positive) : 2 ^ (Zpos (digits2_pos m) - 1) <= Zpos m.
Proof.
  induction m as [m IH|m IH|]; simpl; try lia;
    rewrite Pos2Z.inj_succ; replace (Z.succ (Zpos (digits2_pos m)) - 1)
      with (Z.succ (Zpos (digits2_pos m) - 1)) by lia;
    rewrite Z.pow_succ_r by lia; lia.
Qed.

Lemma digits2_pos_small (m : positive) : Zpos m < 2 ^ 24 -> Zpos (digits2_pos m) <= 24.
Proof.
  intros Hm. pose proof (digits2_pos_lower m) as Hl.
  destruct (Z_le_gt_dec (Zpos (digits2_pos m)) 24) as [|Hgt]; [done|].
  assert (2 ^ 24 <= 2 ^ (Zpos (digits2_pos m) - 1)) by (apply Z.pow_le_mono_r; lia).
  lia.
Qed.

Lemma binary_normalize_small (s : bool) (z : Z) :
  Z.abs z < 2 ^ 24 ->
  truncate (binary_normalize prec emax z 0 s) = Some z.
Proof.
  intros Hz. destruct z as [|p|p]; simpl.
  - reflexivity.
  - apply (binary_round_small false), digits2_pos_small. lia.
  - apply (binary_round_small true), digits2_pos_small. lia.
Qed.

(** A binary32 mantissa has at most 24 digits. *)
Lemma is_float_mantissa (s : bool) (m : positive) (e : Z) :
  is_float (S754_finite s m e) = true -> Zpos m < 2 ^ 24.
Proof.
  unfold is_float, valid_binary, bounded, canonical_mantissa, fexp, emin, prec, emax.
  intros [Hc _]%andb_prop. apply Z.eqb_eq in Hc.
  pose proof (digits2_pos_upper m) as Hu.
  assert (Zpos (digits2_pos m) <= 24) by lia.
  assert (2 ^ Zpos (digits2_pos m) <= 2 ^ 24) by (apply Z.pow_le_mono_r; lia).
  lia.
Qed.

Lemma Qceiling_Qmake (n : Z) (d : positive) : Qceiling (Qmake n d) = - ((- n) / Zpos d).
Proof. reflexivity. Qed.

(** [ceilf] is the mathematical ceiling on every finite binary32 float. *)
Lemma ceilf_exact (x : float) (q : Q) :
  is_float x = true -> to_Q x = Some q ->
  truncate (ceilf x) = Some (Qceiling q).
Proof.
  intros Hx Hq. destruct x as [s| | |s m e]; simpl in Hq; try discriminate;
    injection Hq as <-.
  - simpl. by rewrite Qceiling_Z.
  - apply is_float_mantissa in Hx.
    destruct e as [|k|k]; cbn [ceilf truncate].
    + rewrite Qceiling_Z. by destruct s.
    + rewrite Qceiling_Z. destruct s; simpl; [|done]. f_equal. lia.
    + rewrite Qceiling_Qmake, Pos2Z.inj_pow. apply binary_normalize_small.
      assert (0 < 2 ^ Zpos k) by (apply Z.pow_pos_nonneg; lia).
      assert (2 <= 2 ^ Zpos k).
      { change 2 with (2 ^ 1) at 1. apply Z.pow_le_mono_r; lia. }
      set (c := cond_Zopp s (Zpos m)).
      assert (Z.abs c < 2 ^ 24) by (subst c; destruct s; simpl; lia).
      pose proof (Z.mul_div_le (- c) (2 ^ Zpos k) ltac:(lia)).
      pose proof (Z.mul_succ_div_gt (- c) (2 ^ Zpos k) ltac:(lia)).
      nia.
Qed.

End Float32Facts.

(** * Stepping through the monad, the buffers and the stages *)

Section Proofs.
Context {D : Device}.

Lemma bind_Ok {A B : Type} (c : M A) (k : A -> M B) (w w1 : world) (a : A) :
  c w = Ok a w1 -> (c ≫= k) w = k a w1.
Proof. intros H. unfold mbind, M_bind. by rewrite H. Qed.

Lemma bind_Throw {A B : Type} (c : M A) (k : A -> M B) (w w1 : world) (e : exn) :
  c w = Throw e w1 -> (c ≫= k) w = Throw e w1.
Proof. intros H. unfold mbind, M_bind. by rewrite H. Qed.

Lemma make_eq (h w d s : Z) (wd : world) :
  GPUImage.make h w d s wd
  = Ok (GPUImage.mk h w d s (Some (brk wd)))
       (World (<[brk wd := uninitialized (brk wd)
                             (GPUImage.sizeBytes (GPUImage.mk h w d s (Some (brk wd))))]>
                 (devmem wd))
              (Pos.succ (brk wd)) (out wd)).
Proof. reflexivity. Qed.

Lemma write_ok (b : bytes) (g : GPUImage.t) (w : world) (a : addr) :
  GPUImage.ptr_dev g = Some a -> is_Some (devmem w !! a) ->
  GPUImage.write b g w = Ok tt (World (<[a := b]> (devmem w)) (brk w) (out w)).
Proof. intros Hp [old Ha]. unfold GPUImage.write. by rewrite Hp, Ha. Qed.

Lemma read_ok (g : GPUImage.t) (w : world) (b : bytes) :
  GPUImage.contents g w = Some b -> GPUImage.read g w = Ok b w.
Proof. intros H. unfold GPUImage.read. by rewrite H. Qed.

Lemma clear_ok (g : GPUImage.t) (w : world) (a : addr) :
  GPUImage.ptr_dev g = Some a -> is_Some (devmem w !! a) ->
  GPUImage.clear g w
  = Ok tt (World (<[a := replicate (GPUImage.sizeBytes g) Byte.x00]> (devmem w))
                 (brk w) (out w)).
Proof. apply write_ok. Qed.

Lemma release_ok (g : GPUImage.t) (w : world) (a : addr) :
  GPUImage.ptr_dev g = Some a ->
  GPUImage.release g w = Ok tt (World (delete a (devmem w)) (brk w) (out w)).
Proof. intros Hp. unfold GPUImage.release. by rewrite Hp. Qed.

Lemma ImageModel_make_eq (input : GPUImage.t) (w : world) :
  ImageModel.make input w
  = let h := GPUImage.height input in
    let wd := GPUImage.width input in
    let c := GPUImage.mk h wd 1 4 (Some (brk w)) in
    let g := GPUImage.mk h wd 2 4 (Some (Pos.succ (brk w))) in
    Ok (ImageModel.mk input c g)
       (World (<[Pos.succ (brk w) := uninitialized (Pos.succ (brk w)) (GPUImage.sizeBytes g)]>
                 (<[brk w := uninitialized (brk w) (GPUImage.sizeBytes c)]> (devmem w)))
              (Pos.succ (Pos.succ (brk w))) (out w)).
Proof. reflexivity. Qed.

Lemma FlowUpdate_make_eq (flow img grad : GPUImage.t) (g v : Float32.float) (w : world) :
  FlowUpdate.make flow img grad g v w
  = let h := GPUImage.height flow in
    let wd := GPUImage.width flow in
    let fu := GPUImage.mk h wd 2 4 (Some (brk w)) in
    let iu := GPUImage.mk h wd 1 4 (Some (Pos.succ (brk w))) in
    Ok (FlowUpdate.mk flow img grad fu iu g v)
       (World (<[Pos.succ (brk w) := uninitialized (Pos.succ (brk w)) (GPUImage.sizeBytes iu)]>
                 (<[brk w := uninitialized (brk w) (GPUImage.sizeBytes fu)]> (devmem w)))
              (Pos.succ (Pos.succ (brk w))) (out w)).
Proof. reflexivity. Qed.

Lemma FlowSmoother_make_eq (flow : GPUImage.t) (N : Z) (w : world) :
  FlowSmoother.make flow N w
  = let sf := GPUImage.mk (GPUImage.height flow) (GPUImage.width flow) 2 4 (Some (brk w)) in
    Ok (FlowSmoother.mk flow sf N)
       (World (<[brk w := uninitialized (brk w) (GPUImage.sizeBytes sf)]> (devmem w))
              (Pos.succ (brk w)) (out w)).
Proof. reflexivity. Qed.

Lemma FlowPropagator_make_eq (flow : GPUImage.t) (N : Z) (w : world) :
  FlowPropagator.make flow N w
  = let pf := GPUImage.mk (GPUImage.height flow) (GPUImage.width flow) 2 4 (Some (brk w)) in
    Ok (FlowPropagator.mk flow pf N)
       (World (<[brk w := uninitialized (brk w) (GPUImage.sizeBytes pf)]> (devmem w))
              (Pos.succ (brk w)) (out w)).
Proof. reflexivity. Qed.

Ltac lookups :=
  cbn [devmem brk out GPUImage.ptr_dev];
  repeat first [ rewrite lookup_insert_eq | rewrite lookup_insert_ne by lia
               | rewrite lookup_delete_ne by lia ].

Ltac fields :=
  cbn [FlowFilter.__height FlowFilter.__width FlowFilter.__configured
       FlowFilter.__firstLoad FlowFilter.__inputImage FlowFilter.__imageModel
       FlowFilter.__update FlowFilter.__smoother FlowFilter.__propagator
       ImageModel.inputImage ImageModel.imageConstant ImageModel.imageGradient
       ImageModel.getImageConstant ImageModel.getImageGradient
       FlowUpdate.inputFlow FlowUpdate.inputImage FlowUpdate.inputImageGradient
       FlowUpdate.flowUpdated FlowUpdate.imageUpdated FlowUpdate.gamma
       FlowUpdate.maxflow FlowUpdate.getUpdatedFlow FlowUpdate.getUpdatedImage
       FlowUpdate.getGamma FlowUpdate.getMaxFlow FlowUpdate.setGamma
       FlowUpdate.setMaxFlow FlowUpdate.setInputFlow
       FlowSmoother.inputFlow FlowSmoother.smoothedFlow FlowSmoother.iterations
       FlowSmoother.getSmoothedFlow FlowSmoother.getIterations
       FlowSmoother.setIterations
       FlowPropagator.inputFlow FlowPropagator.propagatedFlow
       FlowPropagator.iterations FlowPropagator.getPropagatedFlow
       FlowPropagator.getIterations FlowPropagator.setIterations
       GPUImage.height GPUImage.width GPUImage.depth GPUImage.itemSize
       GPUImage.ptr_dev devmem brk out].

Lemma configure_spec (f : FlowFilter.t) (w : world) :
  exists f' w',
    FlowFilter.configure f w = Ok f' w'
    /\ FlowFilter.__height f' = FlowFilter.__height f
    /\ FlowFilter.__width f' = FlowFilter.__width f
    /\ FlowFilter.__firstLoad f' = true
    /\ FlowFilter.getGamma f' = Float32.one
    /\ FlowFilter.getSmoothIterations f' = 1
    /\ FlowFilter.wired f' w'
    /\ Forall (fun g => GPUImage.zeroed g w')
         [ FlowPropagator.getPropagatedFlow (FlowFilter.__propagator f');
           FlowUpdate.getUpdatedFlow (FlowFilter.__update f');
           FlowUpdate.getUpdatedImage (FlowFilter.__update f');
           FlowSmoother.getSmoothedFlow (FlowFilter.__smoother f') ]
    /\ out w' = out w.
Proof.
  unfold FlowFilter.configure.
  erewrite bind_Ok by apply make_eq.
  erewrite bind_Ok by apply ImageModel_make_eq.
  erewrite bind_Ok by apply make_eq.
  erewrite bind_Ok by apply FlowUpdate_make_eq.
  erewrite bind_Ok by apply FlowSmoother_make_eq.
  erewrite bind_Ok by apply FlowPropagator_make_eq.
  fields.
  do 4 (erewrite bind_Ok by (apply clear_ok; [reflexivity | lookups; eauto])).
  erewrite bind_Ok by (apply release_ok; reflexivity).
  eexists _, _. split; [reflexivity|].
  fields. unfold FlowFilter.getGamma, FlowFilter.getSmoothIterations. fields.
  do 5 (split; [reflexivity|]).
  split; [|split].
  - split; fields; try reflexivity.
    + unfold FlowFilter.buffers. fields. repeat constructor.
    + unfold FlowFilter.buffers, GPUImage.contents. fields.
      repeat constructor; fields; cbn [mbind option_bind]; lookups; eauto.
    + unfold FlowFilter.buffers. fields. cbn [fmap list_fmap].
      repeat (apply NoDup_cons; split;
              [rewrite ?not_elem_of_cons; repeat split;
               try (intros [=]; lia); apply not_elem_of_nil|]).
      apply NoDup_nil_2.
  - unfold GPUImage.zeroed, GPUImage.contents.
    repeat constructor; fields; cbn [mbind option_bind]; lookups; reflexivity.
  - reflexivity.
Qed.

(** What [configure()] allocates, releases and leaves unwritten. *)
Lemma configure_layout (f : FlowFilter.t) (w : world) :
  exists f' w',
    FlowFilter.configure f w = Ok f' w'
    /\ GPUImage.ptr_dev <$> FlowFilter.buffers f'
       = Some <$> [ brk w; (brk w + 1)%positive; (brk w + 2)%positive;
                    (brk w + 4)%positive; (brk w + 5)%positive;
                    (brk w + 6)%positive; (brk w + 7)%positive ]
    /\ brk w' = (brk w + 8)%positive
    /\ (forall a, ((a < brk w)%positive \/ (brk w + 8 <= a)%positive) ->
                  devmem w' !! a = devmem w !! a)
    /\ GPUImage.contents (FlowFilter.__inputImage f') w'
       = Some (uninitialized (brk w)
                 (GPUImage.sizeBytes (FlowFilter.__inputImage f')))
    /\ GPUImage.contents
         (ImageModel.getImageConstant (FlowFilter.__imageModel f')) w'
       = Some (uninitialized (brk w + 1)%positive
                 (GPUImage.sizeBytes
                    (ImageModel.getImageConstant (FlowFilter.__imageModel f'))))
    /\ GPUImage.contents
         (ImageModel.getImageGradient (FlowFilter.__imageModel f')) w'
       = Some (uninitialized (brk w + 2)%positive
                 (GPUImage.sizeBytes
                    (ImageModel.getImageGradient (FlowFilter.__imageModel f'))))
    /\ devmem w' !! (brk w + 3)%positive = None
    /\ FlowFilter.parameters f' = (Float32.one, Float32.one, 1)
    /\ FlowFilter.getPropagationIterations f' = 1.
Proof.
  unfold FlowFilter.configure.
  erewrite bind_Ok by apply make_eq.
  erewrite bind_Ok by apply ImageModel_make_eq.
  erewrite bind_Ok by apply make_eq.
  erewrite bind_Ok by apply FlowUpdate_make_eq.
  erewrite bind_Ok by apply FlowSmoother_make_eq.
  erewrite bind_Ok by apply FlowPropagator_make_eq.
  fields.
  do 4 (erewrite bind_Ok by (apply clear_ok; [reflexivity | lookups; eauto])).
  erewrite bind_Ok by (apply release_ok; reflexivity).
  eexists _, _. split; [reflexivity|].
  unfold FlowFilter.buffers, FlowFilter.parameters, FlowFilter.getGamma,
    FlowFilter.getMaxFlow, FlowFilter.getSmoothIterations,
    FlowFilter.getPropagationIterations, GPUImage.contents.
  fields. cbn [fmap list_fmap mbind option_bind].
  replace (Pos.succ (brk w)) with (brk w + 1)%positive by lia.
  replace (Pos.succ (brk w + 1)) with (brk w + 2)%positive by lia.
  replace (Pos.succ (brk w + 2)) with (brk w + 3)%positive by lia.
  replace (Pos.succ (brk w + 3)) with (brk w + 4)%positive by lia.
  replace (Pos.succ (brk w + 4)) with (brk w + 5)%positive by lia.
  replace (Pos.succ (brk w + 5)) with (brk w + 6)%positive by lia.
  replace (Pos.succ (brk w + 6)) with (brk w + 7)%positive by lia.
  replace (Pos.succ (brk w + 7)) with (brk w + 8)%positive by lia.
  split; [reflexivity|]. split; [reflexivity|]. split; [|repeat split].
  - intros a Ha. rewrite lookup_delete_ne by lia.
    repeat (rewrite lookup_insert_ne by lia). reflexivity.
  - lookups. reflexivity.
  - lookups. reflexivity.
  - lookups. reflexivity.
  - apply lookup_delete_eq.
Qed.

Lemma emit_eq (ev : event) (w : world) :
  emit ev w = Ok tt (World (devmem w) (brk w) (out w ++ [ev])).
Proof. reflexivity. Qed.

Lemma call_setGamma_eq (g : Float32.float) (f : FlowFilter.t) (w : world) :
  FlowFilter.call_setGamma g f w
  = Ok (FlowFilter.setGamma g f)
       (World (devmem w) (brk w) (out w ++ [StageSet FlowUpdateStage (Gamma g)])).
Proof. reflexivity. Qed.

Lemma call_setMaxFlow_eq (v : Float32.float) (f : FlowFilter.t) (w : world) :
  FlowFilter.call_setMaxFlow v f w
  = Ok (FlowFilter.setMaxFlow v f)
       (World (devmem w) (brk w)
          (out w ++ [ StageSet FlowUpdateStage (MaxFlow v);
                      StageSet FlowPropagatorStage
                        (Iterations (Float32.to_int (Float32.ceilf v))) ])).
Proof.
  unfold FlowFilter.call_setMaxFlow.
  do 2 (erewrite bind_Ok by apply emit_eq). cbn [devmem brk out].
  by rewrite <- app_assoc.
Qed.

Lemma call_setSmoothIterations_eq (N : Z) (f : FlowFilter.t) (w : world) :
  FlowFilter.call_setSmoothIterations N f w
  = Ok (FlowFilter.setSmoothIterations N f)
       (World (devmem w) (brk w) (out w ++ [StageSet FlowSmootherStage (Iterations N)])).
Proof. reflexivity. Qed.

Lemma contents_Some (g : GPUImage.t) (w : world) (a : addr) :
  GPUImage.ptr_dev g = Some a -> GPUImage.contents g w = devmem w !! a.
Proof. intros H. unfold GPUImage.contents. by rewrite H. Qed.

Lemma contents_is_Some (g : GPUImage.t) (w : world) :
  is_Some (GPUImage.contents g w) ->
  exists a b, GPUImage.ptr_dev g = Some a /\ devmem w !! a = Some b.
Proof.
  unfold GPUImage.contents. intros [b Hb].
  destruct (GPUImage.ptr_dev g) as [a|]; [|done]. by exists a, b.
Qed.

Ltac mstep tac := erewrite bind_Ok by tac; cbv beta; cbn [devmem brk out].

Ltac mread :=
  apply read_ok; erewrite contents_Some by eassumption;
  cbn [devmem]; repeat first [ rewrite lookup_insert_eq | rewrite lookup_insert_ne by done ];
  first [ reflexivity | eassumption ].

Ltac mwrite :=
  eapply write_ok; [ eassumption | cbn [devmem]; rewrite ?lookup_insert_is_Some'; eauto 10 ].

Lemma ImageModel_compute_ok (m : ImageModel.t) (w : world) (ai ac ag : addr) (img : bytes) :
  GPUImage.ptr_dev (ImageModel.inputImage m) = Some ai ->
  GPUImage.ptr_dev (ImageModel.imageConstant m) = Some ac ->
  GPUImage.ptr_dev (ImageModel.imageGradient m) = Some ag ->
  devmem w !! ai = Some img ->
  is_Some (devmem w !! ac) -> is_Some (devmem w !! ag) ->
  ImageModel.compute m w
  = let r := imageModel_kernel (GPUImage.height (ImageModel.inputImage m))
                               (GPUImage.width (ImageModel.inputImage m)) img in
    Ok tt (World (<[ag := snd r]> (<[ac := fst r]> (devmem w))) (brk w)
                 (out w ++ [StageCompute ImageModelStage])).
Proof.
  intros Hi Hc Hg Himg Hac Hag. unfold ImageModel.compute.
  mstep ltac:(apply emit_eq). mstep mread. mstep mwrite. cbv zeta.
  erewrite write_ok; [reflexivity | eassumption |].
  cbn [devmem]. rewrite lookup_insert_is_Some'. eauto.
Qed.

Lemma FlowPropagator_compute_ok (p : FlowPropagator.t) (w : world) (ai ao : addr)
    (flow : bytes) :
  GPUImage.ptr_dev (FlowPropagator.inputFlow p) = Some ai ->
  GPUImage.ptr_dev (FlowPropagator.propagatedFlow p) = Some ao ->
  devmem w !! ai = Some flow -> is_Some (devmem w !! ao) ->
  FlowPropagator.compute p w
  = Ok tt (World (<[ao := propagator_kernel
                            (GPUImage.height (FlowPropagator.inputFlow p))
                            (GPUImage.width (FlowPropagator.inputFlow p))
                            (FlowPropagator.iterations p) flow]> (devmem w))
                 (brk w) (out w ++ [StageCompute FlowPropagatorStage])).
Proof.
  intros Hi Ho Hflow Hao. unfold FlowPropagator.compute.
  mstep ltac:(apply emit_eq). mstep mread.
  erewrite write_ok; [reflexivity | eassumption | eauto].
Qed.

Lemma FlowSmoother_compute_ok (s : FlowSmoother.t) (w : world) (ai ao : addr)
    (flow : bytes) :
  GPUImage.ptr_dev (FlowSmoother.inputFlow s) = Some ai ->
  GPUImage.ptr_dev (FlowSmoother.smoothedFlow s) = Some ao ->
  devmem w !! ai = Some flow -> is_Some (devmem w !! ao) ->
  FlowSmoother.compute s w
  = Ok tt (World (<[ao := smoother_kernel
                            (GPUImage.height (FlowSmoother.inputFlow s))
                            (GPUImage.width (FlowSmoother.inputFlow s))
                            (FlowSmoother.iterations s) flow]> (devmem w))
                 (brk w) (out w ++ [StageCompute FlowSmootherStage])).
Proof.
  intros Hi Ho Hflow Hao. unfold FlowSmoother.compute.
  mstep ltac:(apply emit_eq). mstep mread.
  erewrite write_ok; [reflexivity | eassumption | eauto].
Qed.

Lemma FlowUpdate_compute_ok (u : FlowUpdate.t) (w : world)
    (af ai ag afu aiu : addr) (flow img grad old : bytes) :
  GPUImage.ptr_dev (FlowUpdate.inputFlow u) = Some af ->
  GPUImage.ptr_dev (FlowUpdate.inputImage u) = Some ai ->
  GPUImage.ptr_dev (FlowUpdate.inputImageGradient u) = Some ag ->
  GPUImage.ptr_dev (FlowUpdate.flowUpdated u) = Some afu ->
  GPUImage.ptr_dev (FlowUpdate.imageUpdated u) = Some aiu ->
  devmem w !! af = Some flow -> devmem w !! ai = Some img ->
  devmem w !! ag = Some grad -> devmem w !! aiu = Some old ->
  is_Some (devmem w !! afu) ->
  FlowUpdate.compute u w
  = let r := update_kernel (GPUImage.height (FlowUpdate.inputFlow u))
                           (GPUImage.width (FlowUpdate.inputFlow u))
                           (FlowUpdate.gamma u) (FlowUpdate.maxflow u)
                           flow img grad old in
    Ok tt (World (<[aiu := snd r]> (<[afu := fst r]> (devmem w))) (brk w)
                 (out w ++ [StageCompute FlowUpdateStage])).
Proof.
  intros Hf Hi Hg Hfu Hiu Hflow Himg Hgrad Hold Hafu. unfold FlowUpdate.compute.
  mstep ltac:(apply emit_eq). do 4 (mstep mread). mstep mwrite. cbv zeta.
  erewrite write_ok; [reflexivity | eassumption |].
  cbn [devmem]. rewrite lookup_insert_is_Some'. eauto.
Qed.


(** The seven blocks of a configured instance. *)
Lemma wired_blocks (f : FlowFilter.t) (w : world) :
  FlowFilter.wired f w ->
  exists a0 a1 a2 a3 a4 a5 a6 b0 b1 b2 b3 b4 b5 b6,
    (GPUImage.ptr_dev <$> FlowFilter.buffers f)
      = Some <$> [a0; a1; a2; a3; a4; a5; a6]
    /\ NoDup [a0; a1; a2; a3; a4; a5; a6]
    /\ devmem w !! a0 = Some b0 /\ devmem w !! a1 = Some b1
    /\ devmem w !! a2 = Some b2 /\ devmem w !! a3 = Some b3
    /\ devmem w !! a4 = Some b4 /\ devmem w !! a5 = Some b5
    /\ devmem w !! a6 = Some b6.
Proof.
  intros Hw. pose proof (FlowFilter.wired_live f w Hw) as Hl.
  pose proof (FlowFilter.wired_distinct f w Hw) as Hd.
  unfold FlowFilter.buffers in *.
  repeat match goal with
         | H : Forall _ (_ :: _) |- _ =>
             apply Forall_cons in H as [(? & ? & ? & ?)%contents_is_Some H]
         end.
  do 14 eexists. cbn [fmap list_fmap] in *.
  repeat match goal with H : GPUImage.ptr_dev _ = Some _ |- _ => rewrite H in *; clear H end.
  split; [reflexivity|]. split; [|by eauto 10].
  by apply (NoDup_fmap_1 Some).
Qed.


Ltac wired_unpack Hw :=
  let Hb := fresh "Hb" in
  let Hnd := fresh "Hnd" in
  destruct (wired_blocks _ _ Hw)
    as (a0 & a1 & a2 & a3 & a4 & a5 & a6 & b0 & b1 & b2 & b3 & b4 & b5 & b6
        & Hb & Hnd & Hm0 & Hm1 & Hm2 & Hm3 & Hm4 & Hm5 & Hm6);
  unfold FlowFilter.buffers in Hb; cbn [fmap list_fmap] in Hb;
  injection Hb as Hp0 Hp1 Hp2 Hp3 Hp4 Hp5 Hp6;
  rewrite !NoDup_cons, !not_elem_of_cons in Hnd; destruct_and!;
  let Hwm := fresh "Hwm" in
  let Hwuf := fresh "Hwuf" in
  let Hwui := fresh "Hwui" in
  let Hwug := fresh "Hwug" in
  let Hws := fresh "Hws" in
  let Hwp := fresh "Hwp" in
  pose proof (FlowFilter.wired_model_input _ _ Hw) as Hwm;
  pose proof (FlowFilter.wired_update_flow _ _ Hw) as Hwuf;
  pose proof (FlowFilter.wired_update_image _ _ Hw) as Hwui;
  pose proof (FlowFilter.wired_update_gradient _ _ Hw) as Hwug;
  pose proof (FlowFilter.wired_smoother_input _ _ Hw) as Hws;
  pose proof (FlowFilter.wired_propagator_input _ _ Hw) as Hwp.

Ltac solve_ptr := eassumption.

Ltac solve_lookup :=
  cbn [devmem];
  repeat first [ rewrite lookup_insert_eq | rewrite lookup_insert_ne by done ];
  first [ reflexivity | eassumption ].

Ltac solve_live :=
  cbn [devmem]; rewrite ?lookup_insert_is_Some'; eauto 10.

Ltac solve_contents :=
  erewrite contents_Some by solve_ptr; solve_lookup.

(** Overwriting live blocks keeps an instance wired. *)
Lemma wired_mono (f : FlowFilter.t) (w w' : world) :
  FlowFilter.wired f w ->
  (forall a, is_Some (devmem w !! a) -> is_Some (devmem w' !! a)) ->
  FlowFilter.wired f w'.
Proof.
  intros Hw Hmono. destruct Hw. split; try done.
  eapply Forall_impl; [eassumption|]. cbv beta. intros g Hg.
  apply contents_is_Some in Hg as (a & b & Ha & Hb).
  rewrite (contents_Some _ _ _ Ha). apply Hmono. by rewrite Hb.
Qed.

Lemma wired_dims (f : FlowFilter.t) (w : world) :
  FlowFilter.wired f w ->
  GPUImage.height (FlowFilter.__inputImage f) = FlowFilter.__height f
  /\ GPUImage.width (FlowFilter.__inputImage f) = FlowFilter.__width f
  /\ GPUImage.height (FlowUpdate.flowUpdated (FlowFilter.__update f))
     = FlowFilter.__height f
  /\ GPUImage.width (FlowUpdate.flowUpdated (FlowFilter.__update f))
     = FlowFilter.__width f
  /\ GPUImage.height (FlowSmoother.smoothedFlow (FlowFilter.__smoother f))
     = FlowFilter.__height f
  /\ GPUImage.width (FlowSmoother.smoothedFlow (FlowFilter.__smoother f))
     = FlowFilter.__width f
  /\ GPUImage.height (FlowPropagator.propagatedFlow (FlowFilter.__propagator f))
     = FlowFilter.__height f
  /\ GPUImage.width (FlowPropagator.propagatedFlow (FlowFilter.__propagator f))
     = FlowFilter.__width f.
Proof.
  intros Hw. pose proof (FlowFilter.wired_shapes _ _ Hw) as Hs.
  unfold FlowFilter.buffers in Hs. rewrite !Forall_cons in Hs.
  destruct_and!. by repeat split.
Qed.

Lemma compute_spec (f : FlowFilter.t) (w : world) :
  FlowFilter.wired f w ->
  exists (img flow old : bytes) (w' : world),
    GPUImage.contents (FlowFilter.__inputImage f) w = Some img
    /\ GPUImage.contents (FlowSmoother.getSmoothedFlow (FlowFilter.__smoother f)) w
       = Some flow
    /\ GPUImage.contents (FlowUpdate.getUpdatedImage (FlowFilter.__update f)) w
       = Some old
    /\ FlowFilter.compute f w = Ok f w'
    /\ out w' = out w ++ [ StartTiming;
                           StageCompute ImageModelStage;
                           StageCompute FlowPropagatorStage;
                           StageCompute FlowUpdateStage;
                           StageCompute FlowSmootherStage;
                           StopTiming ]
    /\ brk w' = brk w
    /\ dom (devmem w') = dom (devmem w)
    /\ FlowFilter.wired f w'
    /\ let h := FlowFilter.height f in
       let wd := FlowFilter.width f in
       let m := imageModel_kernel h wd img in
       let p := propagator_kernel h wd (FlowFilter.getPropagationIterations f) flow in
       let u := update_kernel h wd (FlowFilter.getGamma f) (FlowFilter.getMaxFlow f)
                              p (fst m) (snd m) old in
       let s := smoother_kernel h wd (FlowFilter.getSmoothIterations f) (fst u) in
       GPUImage.contents (FlowFilter.__inputImage f) w' = Some img
       /\ GPUImage.contents (ImageModel.getImageConstant (FlowFilter.__imageModel f)) w'
          = Some (fst m)
       /\ GPUImage.contents (ImageModel.getImageGradient (FlowFilter.__imageModel f)) w'
          = Some (snd m)
       /\ GPUImage.contents
            (FlowPropagator.getPropagatedFlow (FlowFilter.__propagator f)) w'
          = Some p
       /\ GPUImage.contents (FlowFilter.getFlow f) w' = Some (fst u)
       /\ GPUImage.contents (FlowUpdate.getUpdatedImage (FlowFilter.__update f)) w'
          = Some (snd u)
       /\ GPUImage.contents (FlowSmoother.getSmoothedFlow (FlowFilter.__smoother f)) w'
          = Some s.
Proof.
  intros Hw. wired_unpack Hw.
  destruct (wired_dims _ _ Hw) as (Hh0 & Hw0 & Hh3 & Hw3 & Hh5 & Hw5 & Hh6 & Hw6).
  exists b0, b5, b4.
  unfold FlowFilter.compute, startTiming, stopTiming.
  mstep ltac:(apply emit_eq).
  erewrite (bind_Ok (ImageModel.compute _));
    [|eapply ImageModel_compute_ok; rewrite ?Hwm;
      [solve_ptr | solve_ptr | solve_ptr | solve_lookup | solve_live | solve_live]].
  erewrite (bind_Ok (FlowPropagator.compute _));
    [|eapply FlowPropagator_compute_ok; rewrite ?Hwp;
      [solve_ptr | solve_ptr | solve_lookup | solve_live]].
  erewrite (bind_Ok (FlowUpdate.compute _));
    [|eapply FlowUpdate_compute_ok; rewrite ?Hwuf, ?Hwui, ?Hwug;
      [solve_ptr | solve_ptr | solve_ptr | solve_ptr | solve_ptr
      | solve_lookup | solve_lookup | solve_lookup | solve_lookup | solve_live]].
  erewrite (bind_Ok (FlowSmoother.compute _));
    [|eapply FlowSmoother_compute_ok; rewrite ?Hws;
      [solve_ptr | solve_ptr | solve_lookup | solve_live]].
  mstep ltac:(apply emit_eq).
  cbv beta zeta. cbn [devmem brk out].
  rewrite Hwm, Hwuf, Hws, Hwp, Hh0, Hw0, Hh3, Hw3, Hh5, Hw5, Hh6, Hw6.
  eexists. unfold FlowFilter.getFlow, FlowFilter.getGamma, FlowFilter.getMaxFlow,
    FlowFilter.getSmoothIterations, FlowFilter.getPropagationIterations,
    FlowFilter.height, FlowFilter.width,
    FlowUpdate.getUpdatedImage, FlowUpdate.getUpdatedFlow, FlowUpdate.getGamma,
    FlowUpdate.getMaxFlow, FlowSmoother.getSmoothedFlow, FlowSmoother.getIterations,
    FlowPropagator.getPropagatedFlow, FlowPropagator.getIterations,
    ImageModel.getImageConstant, ImageModel.getImageGradient.
  split; [solve_contents|]. split; [solve_contents|]. split; [solve_contents|].
  split; [reflexivity|]. cbn [devmem brk out].
  split; [by rewrite <- !app_assoc|]. split; [reflexivity|].
  split; [|split].
  - repeat (rewrite dom_insert_lookup_L by solve_live). reflexivity.
  - eapply wired_mono; [exact Hw|]. cbn [devmem]. intros a Ha.
    rewrite !lookup_insert_is_Some'. eauto 10.
  - cbv zeta. repeat split; solve_contents.
Qed.


Lemma upload_ok (img : image_t.t) (g : GPUImage.t) (w : world) (a : addr) :
  GPUImage.compareShape img g = true ->
  GPUImage.ptr_dev g = Some a -> is_Some (devmem w !! a) ->
  GPUImage.upload img g w
  = Ok tt (World (<[a := image_t.data img]> (devmem w)) (brk w) (out w)).
Proof. intros Hs Hp Ha. unfold GPUImage.upload. rewrite Hs. by apply write_ok. Qed.

Lemma upload_mismatch (img : image_t.t) (g : GPUImage.t) (w : world) :
  GPUImage.compareShape img g = false ->
  GPUImage.upload img g w = Throw ShapeMismatch w.
Proof. intros Hs. unfold GPUImage.upload. by rewrite Hs. Qed.

Lemma copyFrom_ok (src g : GPUImage.t) (w : world) (as_ a : addr) (b : bytes) :
  GPUImage.ptr_dev src = Some as_ -> GPUImage.ptr_dev g = Some a ->
  devmem w !! as_ = Some b -> is_Some (devmem w !! a) ->
  GPUImage.copyFrom src g w = Ok tt (World (<[a := b]> (devmem w)) (brk w) (out w)).
Proof.
  intros Hs Hg Hb Ha. unfold GPUImage.copyFrom.
  mstep mread. by apply write_ok.
Qed.

Lemma wired_set_firstLoad (b : bool) (f : FlowFilter.t) (w : world) :
  FlowFilter.wired f w -> FlowFilter.wired (FlowFilter.set_firstLoad b f) w.
Proof. intros []. by split. Qed.

(** The first load: upload, image model, seeding of the updated image. *)
Lemma loadImage_first (f : FlowFilter.t) (w : world) (image : image_t.t) :
  FlowFilter.wired f w ->
  GPUImage.compareShape image (FlowFilter.__inputImage f) = true ->
  FlowFilter.__firstLoad f = true ->
  exists w',
    FlowFilter.loadImage image f w = Ok (FlowFilter.set_firstLoad false f) w'
    /\ out w' = out w ++ [ Cout "FlowFilter::loadImage(): fisrt load";
                           StageCompute ImageModelStage ]
    /\ brk w' = brk w
    /\ FlowFilter.wired (FlowFilter.set_firstLoad false f) w'
    /\ GPUImage.contents (FlowFilter.__inputImage f) w' = Some (image_t.data image)
    /\ GPUImage.contents (ImageModel.getImageConstant (FlowFilter.__imageModel f)) w'
       = Some (fst (imageModel_kernel (FlowFilter.height f) (FlowFilter.width f)
                                      (image_t.data image)))
    /\ GPUImage.contents (FlowUpdate.getUpdatedImage (FlowFilter.__update f)) w'
       = GPUImage.contents (ImageModel.getImageConstant (FlowFilter.__imageModel f)) w'.
Proof.
  intros Hw Hshape Hfirst. wired_unpack Hw.
  destruct (wired_dims _ _ Hw) as (Hh0 & Hw0 & _).
  unfold FlowFilter.loadImage.
  mstep ltac:(eapply upload_ok; [exact Hshape | solve_ptr | solve_live]).
  rewrite Hfirst.
  mstep ltac:(apply emit_eq).
  erewrite (bind_Ok (ImageModel.compute _));
    [|eapply ImageModel_compute_ok; rewrite ?Hwm;
      [solve_ptr | solve_ptr | solve_ptr | solve_lookup | solve_live | solve_live]].
  cbv beta zeta. cbn [devmem brk out].
  mstep ltac:(eapply copyFrom_ok; [solve_ptr | solve_ptr | solve_lookup | solve_live]).
  rewrite Hwm, Hh0, Hw0.
  eexists. split; [reflexivity|]. cbn [devmem brk out].
  unfold FlowFilter.height, FlowFilter.width, ImageModel.getImageConstant,
    FlowUpdate.getUpdatedImage.
  split; [by rewrite <- !app_assoc|]. split; [reflexivity|].
  split; [|repeat split].
  - apply wired_set_firstLoad. eapply wired_mono; [exact Hw|]. cbn [devmem].
    intros a Ha. rewrite !lookup_insert_is_Some'. eauto 10.
  - solve_contents.
  - solve_contents.
  - erewrite !contents_Some by solve_ptr. cbn [devmem].
    rewrite lookup_insert_eq.
    by repeat first [ rewrite lookup_insert_eq | rewrite lookup_insert_ne by done ].
Qed.

(** Every later load: the upload and nothing else. *)
Lemma loadImage_later (f : FlowFilter.t) (w : world) (image : image_t.t) :
  FlowFilter.wired f w ->
  GPUImage.compareShape image (FlowFilter.__inputImage f) = true ->
  FlowFilter.__firstLoad f = false ->
  exists w',
    FlowFilter.loadImage image f w = Ok f w'
    /\ out w' = out w
    /\ brk w' = brk w
    /\ FlowFilter.wired f w'
    /\ GPUImage.contents (FlowFilter.__inputImage f) w' = Some (image_t.data image)
    /\ Forall (fun g => GPUImage.contents g w' = GPUImage.contents g w)
              (tail (FlowFilter.buffers f)).
Proof.
  intros Hw Hshape Hfirst. wired_unpack Hw.
  unfold FlowFilter.loadImage.
  mstep ltac:(eapply upload_ok; [exact Hshape | solve_ptr | solve_live]).
  rewrite Hfirst. eexists. split; [reflexivity|]. cbn [devmem brk out].
  do 2 (split; [reflexivity|]). split; [|split].
  - eapply wired_mono; [exact Hw|]. cbn [devmem].
    intros a Ha. rewrite !lookup_insert_is_Some'. eauto.
  - solve_contents.
  - unfold FlowFilter.buffers. cbn [tail].
    repeat constructor; erewrite !contents_Some by solve_ptr; cbn [devmem];
      by rewrite lookup_insert_ne.
Qed.

Lemma loadImage_mismatch (f : FlowFilter.t) (w : world) (image : image_t.t) :
  GPUImage.compareShape image (FlowFilter.__inputImage f) = false ->
  FlowFilter.loadImage image f w = Throw ShapeMismatch w.
Proof.
  intros Hs. unfold FlowFilter.loadImage.
  erewrite bind_Throw; [reflexivity|]. by apply upload_mismatch.
Qed.


Lemma bind_inv {A B : Type} (c : M A) (k : A -> M B) (w w' : world) (b : B) :
  (c ≫= k) w = Ok b w' -> exists a w1, c w = Ok a w1 /\ k a w1 = Ok b w'.
Proof.
  unfold mbind, M_bind. destruct (c w) as [a w1|e w1]; [|done]. eauto.
Qed.

Lemma ret_inv {A : Type} (a b : A) (w w' : world) :
  mret (M := M) a w = Ok b w' -> b = a /\ w' = w.
Proof. by intros [= -> ->]. Qed.

Lemma download_inv (img r : image_t.t) (g : GPUImage.t) (w w' : world) :
  GPUImage.download img g w = Ok r w' -> w' = w.
Proof.
  unfold GPUImage.download. destruct (GPUImage.compareShape img g); [|done].
  intros (b & w1 & Hr & Hk)%bind_inv. apply ret_inv in Hk as [_ ->].
  unfold GPUImage.read in Hr. by destruct (GPUImage.contents g w); simplify_eq.
Qed.

Lemma compute_inv (f f' : FlowFilter.t) (w w' : world) :
  FlowFilter.compute f w = Ok f' w' -> f' = f.
Proof.
  unfold FlowFilter.compute. intros H.
  repeat (apply bind_inv in H as (? & ? & _ & H)). by apply ret_inv in H as [-> _].
Qed.

Lemma loadImage_inv (image : image_t.t) (f f' : FlowFilter.t) (w w' : world) :
  FlowFilter.loadImage image f w = Ok f' w' ->
  f' = FlowFilter.set_firstLoad false f.
Proof.
  unfold FlowFilter.loadImage. intros (? & ? & _ & H)%bind_inv.
  destruct (FlowFilter.__firstLoad f) eqn:Hfl.
  - repeat (apply bind_inv in H as (? & ? & _ & H)). by apply ret_inv in H as [-> _].
  - apply ret_inv in H as [-> _]. destruct f. by simplify_eq/=.
Qed.

Lemma bootstraps_app (l l' : list event) :
  FlowFilter.bootstraps (l ++ l')
  = (FlowFilter.bootstraps l + FlowFilter.bootstraps l')%nat.
Proof. unfold FlowFilter.bootstraps. by rewrite filter_app, length_app. Qed.

Lemma bootstraps_first_load :
  FlowFilter.bootstraps [ Cout "FlowFilter::loadImage(): fisrt load";
                          StageCompute ImageModelStage ] = 1%nat.
Proof. vm_compute. reflexivity. Qed.

Lemma bootstraps_compute :
  FlowFilter.bootstraps [ StartTiming;
                          StageCompute ImageModelStage;
                          StageCompute FlowPropagatorStage;
                          StageCompute FlowUpdateStage;
                          StageCompute FlowSmootherStage;
                          StopTiming ] = 0%nat.
Proof. vm_compute. reflexivity. Qed.

Lemma bootstraps_StageSet (s : stage_id) (p : setting) (l : list event) :
  FlowFilter.bootstraps (StageSet s p :: l) = FlowFilter.bootstraps l.
Proof. unfold FlowFilter.bootstraps. rewrite filter_cons. by case_decide. Qed.

(** The log is no part of the wiring. *)
Lemma wired_out (f : FlowFilter.t) (w : world) (l : list event) :
  FlowFilter.wired f w -> FlowFilter.wired f (World (devmem w) (brk w) l).
Proof. intros Hw. by apply (wired_mono f w). Qed.

Lemma wired_setGamma (g : Float32.float) (f : FlowFilter.t) (w : world) :
  FlowFilter.wired f w -> FlowFilter.wired (FlowFilter.setGamma g f) w.
Proof. intros []. by split. Qed.

Lemma wired_setMaxFlow (v : Float32.float) (f : FlowFilter.t) (w : world) :
  FlowFilter.wired f w -> FlowFilter.wired (FlowFilter.setMaxFlow v f) w.
Proof. intros []. by split. Qed.

Lemma wired_setSmoothIterations (N : Z) (f : FlowFilter.t) (w : world) :
  FlowFilter.wired f w -> FlowFilter.wired (FlowFilter.setSmoothIterations N f) w.
Proof. intros []. by split. Qed.

(** One call on a configured instance: what it keeps. *)
Lemma invoke_wired (c : FlowFilter.call) (f f' : FlowFilter.t) (w w' : world) :
  FlowFilter.wired f w -> FlowFilter.invoke c f w = Ok f' w' ->
  FlowFilter.wired f' w'
  /\ FlowFilter.__firstLoad f'
     = FlowFilter.__firstLoad f && negb (FlowFilter.is_load c)
  /\ (FlowFilter.bootstraps (out w') + Nat.b2n (FlowFilter.__firstLoad f')
      = FlowFilter.bootstraps (out w) + Nat.b2n (FlowFilter.__firstLoad f))%nat.
Proof.
  intros Hw Hc. destruct c as [image| |flow|image|g|v|N]; cbn [FlowFilter.invoke] in Hc.
  - destruct (GPUImage.compareShape image (FlowFilter.__inputImage f)) eqn:Hs;
      [|by rewrite loadImage_mismatch in Hc].
    destruct (FlowFilter.__firstLoad f) eqn:Hfl.
    + destruct (loadImage_first f w image Hw Hs Hfl) as (w1 & Hl & Hout & _ & Hw1 & _).
      rewrite Hl in Hc. injection Hc as <- <-. split; [done|]. split; [done|].
      rewrite Hout, bootstraps_app, bootstraps_first_load. cbn. lia.
    + destruct (loadImage_later f w image Hw Hs Hfl) as (w1 & Hl & Hout & _ & Hw1 & _).
      rewrite Hl in Hc. injection Hc as <- <-. rewrite Hfl, Hout. done.
  - destruct (compute_spec f w Hw)
      as (? & ? & ? & w1 & _ & _ & _ & Hcomp & Hout & _ & _ & Hw1 & _).
    rewrite Hcomp in Hc. injection Hc as <- <-. split; [done|].
    rewrite Hout, bootstraps_app, bootstraps_compute, andb_true_r.
    split; [done|]. lia.
  - apply bind_inv in Hc as (r & w1 & ->%download_inv & [-> ->]%ret_inv).
    by rewrite andb_true_r.
  - apply bind_inv in Hc as (r & w1 & ->%download_inv & [-> ->]%ret_inv).
    by rewrite andb_true_r.
  - rewrite call_setGamma_eq in Hc. injection Hc as <- <-.
    split; [by apply wired_setGamma, wired_out|]. cbn [out].
    rewrite bootstraps_app, !bootstraps_StageSet, andb_true_r. split; [done|].
    cbn. lia.
  - rewrite call_setMaxFlow_eq in Hc. injection Hc as <- <-.
    split; [by apply wired_setMaxFlow, wired_out|]. cbn [out].
    rewrite bootstraps_app, !bootstraps_StageSet, andb_true_r. split; [done|].
    cbn. lia.
  - rewrite call_setSmoothIterations_eq in Hc. injection Hc as <- <-.
    split; [by apply wired_setSmoothIterations, wired_out|]. cbn [out].
    rewrite bootstraps_app, !bootstraps_StageSet, andb_true_r. split; [done|].
    cbn. lia.
Qed.

Lemma run_wired (cs : list FlowFilter.call) (f f' : FlowFilter.t) (w w' : world) :
  FlowFilter.wired f w -> FlowFilter.run cs f w = Ok f' w' ->
  FlowFilter.wired f' w'
  /\ FlowFilter.__firstLoad f'
     = FlowFilter.__firstLoad f && negb (existsb FlowFilter.is_load cs)
  /\ (FlowFilter.bootstraps (out w') + Nat.b2n (FlowFilter.__firstLoad f')
      = FlowFilter.bootstraps (out w) + Nat.b2n (FlowFilter.__firstLoad f))%nat.
Proof.
  revert f w. induction cs as [|c cs IH]; intros f w Hw Hr; cbn [FlowFilter.run] in Hr.
  - apply ret_inv in Hr as [-> ->]. by rewrite andb_true_r.
  - apply bind_inv in Hr as (f1 & w1 & Hc & Hr).
    destruct (invoke_wired _ _ _ _ _ Hw Hc) as (Hw1 & Hf1 & Hb1).
    destruct (IH _ _ Hw1 Hr) as (Hw' & Hf' & Hb').
    split; [done|]. split; [|by rewrite Hb', Hb1].
    cbn [existsb]. by rewrite Hf', Hf1, negb_orb, andb_assoc.
Qed.


Lemma new_ok (h wd si : Z) (mf g : Float32.float) (this : FlowFilter.t) (w0 : world) :
  0 < h -> 0 < wd ->
  exists f0 w1,
    FlowFilter.configure
      (FlowFilter.mk h wd false (FlowFilter.__firstLoad this)
         (FlowFilter.__inputImage this) (FlowFilter.__imageModel this)
         (FlowFilter.__update this) (FlowFilter.__smoother this)
         (FlowFilter.__propagator this)) w0 = Ok f0 w1
    /\ FlowFilter.new h wd si mf g this w0
       = Ok (FlowFilter.setSmoothIterations si
               (FlowFilter.setMaxFlow mf (FlowFilter.setGamma g f0)))
            (World (devmem w1) (brk w1)
               (out w1 ++ [ StageSet FlowUpdateStage (Gamma g);
                            StageSet FlowUpdateStage (MaxFlow mf);
                            StageSet FlowPropagatorStage
                              (Iterations (Float32.to_int (Float32.ceilf mf)));
                            StageSet FlowSmootherStage (Iterations si) ]))
    /\ FlowFilter.__height f0 = h /\ FlowFilter.__width f0 = wd
    /\ FlowFilter.__firstLoad f0 = true
    /\ FlowFilter.wired f0 w1
    /\ out w1 = out w0.
Proof.
  intros Hh Hwd. unfold FlowFilter.new.
  replace (h <=? 0) with false by (symmetry; apply Z.leb_gt; lia).
  replace (wd <=? 0) with false by (symmetry; apply Z.leb_gt; lia).
  match goal with |- context [FlowFilter.configure ?f] =>
    destruct (configure_spec f w0)
      as (f0 & w1 & Hc & Hfh & Hfw & Hfl & _ & _ & Hw1 & _ & Hout) end.
  exists f0, w1. erewrite bind_Ok by exact Hc.
  erewrite bind_Ok by apply call_setGamma_eq.
  erewrite bind_Ok by apply call_setMaxFlow_eq.
  rewrite call_setSmoothIterations_eq. cbn [devmem brk out].
  rewrite <- !app_assoc.
  split; [done|]. split; [reflexivity|]. do 3 (split; [assumption|]). by split.
Qed.

Lemma new_throws (h wd si : Z) (mf g : Float32.float) (this : FlowFilter.t) (w0 : world) :
  h <= 0 \/ wd <= 0 ->
  exists msg n,
    FlowFilter.new h wd si mf g this w0
    = Throw ConstructionError (World (devmem w0) (brk w0) (out w0 ++ [Cerr msg n])).
Proof.
  intros Hd. unfold FlowFilter.new. destruct (h <=? 0) eqn:Hh.
  - do 2 eexists. reflexivity.
  - apply Z.leb_gt in Hh. replace (wd <=? 0) with true by (symmetry; apply Z.leb_le; lia).
    do 2 eexists. reflexivity.
Qed.


(** * Properties of the orchestrator *)

(** C1.  On a configured instance [compute()] returns, having run
    [startTiming], then the [compute()] of the image model, of the
    propagator, of the update and of the smoother in that order, then
    [stopTiming].  The object itself is unchanged, nothing is allocated,
    and the only other effect is on buffer contents: each stage's output is
    its kernel applied to what the stages before it wrote in this cycle (the
    propagator reads the smoothed flow of the previous cycle). *)
Theorem compute_stage_sequence (f : FlowFilter.t) (w : world) :
  FlowFilter.wired f w ->
  exists (img flow old : bytes) (w' : world),
    GPUImage.contents (FlowFilter.__inputImage f) w = Some img
    /\ GPUImage.contents (FlowSmoother.getSmoothedFlow (FlowFilter.__smoother f)) w
       = Some flow
    /\ GPUImage.contents (FlowUpdate.getUpdatedImage (FlowFilter.__update f)) w
       = Some old
    /\ FlowFilter.compute f w = Ok f w'
    /\ out w' = out w ++ [ StartTiming;
                           StageCompute ImageModelStage;
                           StageCompute FlowPropagatorStage;
                           StageCompute FlowUpdateStage;
                           StageCompute FlowSmootherStage;
                           StopTiming ]
    /\ brk w' = brk w
    /\ dom (devmem w') = dom (devmem w)
    /\ FlowFilter.wired f w'
    /\ let h := FlowFilter.height f in
       let wd := FlowFilter.width f in
       let m := imageModel_kernel h wd img in
       let p := propagator_kernel h wd (FlowFilter.getPropagationIterations f) flow in
       let u := update_kernel h wd (FlowFilter.getGamma f) (FlowFilter.getMaxFlow f)
                              p (fst m) (snd m) old in
       let s := smoother_kernel h wd (FlowFilter.getSmoothIterations f) (fst u) in
       GPUImage.contents (FlowFilter.__inputImage f) w' = Some img
       /\ GPUImage.contents (ImageModel.getImageConstant (FlowFilter.__imageModel f)) w'
          = Some (fst m)
       /\ GPUImage.contents (ImageModel.getImageGradient (FlowFilter.__imageModel f)) w'
          = Some (snd m)
       /\ GPUImage.contents
            (FlowPropagator.getPropagatedFlow (FlowFilter.__propagator f)) w'
          = Some p
       /\ GPUImage.contents (FlowFilter.getFlow f) w' = Some (fst u)
       /\ GPUImage.contents (FlowUpdate.getUpdatedImage (FlowFilter.__update f)) w'
          = Some (snd u)
       /\ GPUImage.contents (FlowSmoother.getSmoothedFlow (FlowFilter.__smoother f)) w'
          = Some s.
Proof. apply compute_spec. Qed.

(** C2.  [configure()] returns with the propagated flow, the updated flow,
    the updated image and the smoothed flow zero-filled and with
    [__configured] and [__firstLoad] both true; downloading the smoothed
    flow right then yields only zero bytes. *)
Theorem configure_zero_fills (f : FlowFilter.t) (w : world) :
  exists f' w',
    FlowFilter.configure f w = Ok f' w'
    /\ GPUImage.zeroed (FlowPropagator.getPropagatedFlow (FlowFilter.__propagator f')) w'
    /\ GPUImage.zeroed (FlowUpdate.getUpdatedFlow (FlowFilter.__update f')) w'
    /\ GPUImage.zeroed (FlowUpdate.getUpdatedImage (FlowFilter.__update f')) w'
    /\ GPUImage.zeroed (FlowSmoother.getSmoothedFlow (FlowFilter.__smoother f')) w'
    /\ FlowFilter.__configured f' = true
    /\ FlowFilter.__firstLoad f' = true
    /\ forall flow : image_t.t,
         GPUImage.compareShape flow
           (FlowSmoother.getSmoothedFlow (FlowFilter.__smoother f')) = true ->
         exists r,
           FlowFilter.downloadFlow flow f' w' = Ok r w'
           /\ Forall (fun b => b = Byte.x00) (image_t.data r).
Proof.
  destruct (configure_spec f w) as (f' & w' & Hc & _ & _ & Hfl & _ & _ & Hw & Hz & _).
  exists f', w'. rewrite !Forall_cons in Hz. destruct Hz as (Hp & Hfu & Hiu & Hs & _).
  do 5 (split; [assumption|]). split; [by destruct Hw|]. split; [assumption|].
  intros flow Hshape. eexists. unfold FlowFilter.downloadFlow, GPUImage.download.
  rewrite Hshape. erewrite bind_Ok by (apply read_ok; exact Hs).
  split; [reflexivity|]. cbn [image_t.with_data image_t.data].
  apply Forall_forall. by intros b ->%elem_of_replicate_inv.
Qed.

(** C3.  With [__firstLoad] true, [loadImage] uploads the host image, runs
    the image model, copies the fresh image constant into the updated
    image and clears [__firstLoad]; with [__firstLoad] false it only
    uploads, and the updated image (like every buffer but the input image)
    keeps its contents.  Over the calls made on an instance after its
    construction, [__firstLoad] is true exactly as long as no [loadImage]
    has returned, and the bootstrap is logged at most once. *)
Theorem loadImage_bootstrap_once :
  (forall (f : FlowFilter.t) (w : world) (image : image_t.t),
     FlowFilter.wired f w ->
     GPUImage.compareShape image (FlowFilter.__inputImage f) = true ->
     (FlowFilter.__firstLoad f = true ->
      exists w',
        FlowFilter.loadImage image f w = Ok (FlowFilter.set_firstLoad false f) w'
        /\ FlowFilter.__firstLoad (FlowFilter.set_firstLoad false f) = false
        /\ out w' = out w ++ [ Cout "FlowFilter::loadImage(): fisrt load";
                               StageCompute ImageModelStage ]
        /\ GPUImage.contents (FlowFilter.__inputImage f) w' = Some (image_t.data image)
        /\ GPUImage.contents
             (ImageModel.getImageConstant (FlowFilter.__imageModel f)) w'
           = Some (fst (imageModel_kernel (FlowFilter.height f) (FlowFilter.width f)
                                          (image_t.data image)))
        /\ GPUImage.contents (FlowUpdate.getUpdatedImage (FlowFilter.__update f)) w'
           = GPUImage.contents
               (ImageModel.getImageConstant (FlowFilter.__imageModel f)) w')
     /\ (FlowFilter.__firstLoad f = false ->
         exists w',
           FlowFilter.loadImage image f w = Ok f w'
           /\ out w' = out w
           /\ GPUImage.contents (FlowFilter.__inputImage f) w'
              = Some (image_t.data image)
           /\ Forall (fun g => GPUImage.contents g w' = GPUImage.contents g w)
                     (tail (FlowFilter.buffers f))))
  /\ (forall (h wd si : Z) (mf g : Float32.float) (this f0 f : FlowFilter.t)
        (w0 w1 w : world) (cs : list FlowFilter.call),
        FlowFilter.new h wd si mf g this w0 = Ok f0 w1 ->
        FlowFilter.run cs f0 w1 = Ok f w ->
        FlowFilter.__firstLoad f = negb (existsb FlowFilter.is_load cs)
        /\ (FlowFilter.bootstraps (out w) + Nat.b2n (FlowFilter.__firstLoad f)
            = FlowFilter.bootstraps (out w0) + 1)%nat).
Proof.
  split.
  - intros f w image Hw Hs. split; intros Hfl.
    + destruct (loadImage_first f w image Hw Hs Hfl)
        as (w' & Hl & Hout & _ & _ & Hin & Hc & Hu).
      exists w'. by repeat split.
    + destruct (loadImage_later f w image Hw Hs Hfl)
        as (w' & Hl & Hout & _ & _ & Hin & Hrest).
      exists w'. by repeat split.
  - intros h wd si mf g this f0 f w0 w1 w cs Hnew Hrun.
    destruct (Z_le_gt_dec h 0) as [Hh|Hh];
      [by destruct (new_throws h wd si mf g this w0 (or_introl Hh))
            as (? & ? & Ht); rewrite Ht in Hnew|].
    destruct (Z_le_gt_dec wd 0) as [Hwd|Hwd];
      [by destruct (new_throws h wd si mf g this w0 (or_intror Hwd))
            as (? & ? & Ht); rewrite Ht in Hnew|].
    destruct (new_ok h wd si mf g this w0 ltac:(lia) ltac:(lia))
      as (f1 & w2 & _ & Hn & _ & _ & Hfl & Hw1 & Hout).
    rewrite Hn in Hnew. injection Hnew as <- <-.
    apply (wired_setGamma g), (wired_setMaxFlow mf), (wired_setSmoothIterations si) in Hw1.
    eapply wired_out in Hw1.
    destruct (run_wired _ _ _ _ _ Hw1 Hrun) as (_ & Hf & Hb).
    cbn [FlowFilter.setSmoothIterations FlowFilter.setMaxFlow FlowFilter.setGamma
         FlowFilter.__firstLoad out] in Hf, Hb.
    rewrite bootstraps_app, !bootstraps_StageSet in Hb.
    rewrite Hfl in Hf, Hb. rewrite Hout in Hb. split; [done|].
    rewrite Hb. cbn. lia.
Qed.


(** C4, within the range of [int].  For every finite binary32 [v] whose
    ceiling fits an [int], [getPropagationIterations()] after
    [setMaxFlow(v)] is the ceiling of [v]'s value.  No other call changes the count, and on an
    instance built by the constructor the count is always
    [int(ceilf(getMaxFlow()))]. *)
Theorem setMaxFlow_derives_iterations :
  (forall (f : FlowFilter.t) (v : Float32.float) (q : Q),
     Float32.is_float v = true -> Float32.to_Q v = Some q ->
     Float32.INT_MIN <= Qceiling q <= Float32.INT_MAX ->
     FlowFilter.getPropagationIterations (FlowFilter.setMaxFlow v f) = Qceiling q
     /\ FlowFilter.getMaxFlow (FlowFilter.setMaxFlow v f) = v)
  /\ (forall (c : FlowFilter.call) (f f' : FlowFilter.t) (w w' : world),
        (forall v, c <> FlowFilter.SetMaxFlow v) ->
        FlowFilter.invoke c f w = Ok f' w' ->
        FlowFilter.getPropagationIterations f' = FlowFilter.getPropagationIterations f)
  /\ (forall (h wd si : Z) (mf g : Float32.float) (this f0 f : FlowFilter.t)
        (w0 w1 w : world) (cs : list FlowFilter.call),
        FlowFilter.new h wd si mf g this w0 = Ok f0 w1 ->
        FlowFilter.run cs f0 w1 = Ok f w ->
        FlowFilter.getPropagationIterations f
        = Float32.to_int (Float32.ceilf (FlowFilter.getMaxFlow f))).
Proof.
  split; [|split].
  - intros f v q Hv Hq Hr. split; [|reflexivity].
    unfold FlowFilter.getPropagationIterations, FlowFilter.setMaxFlow.
    cbn [FlowFilter.__propagator FlowPropagator.getIterations
         FlowPropagator.setIterations FlowPropagator.iterations].
    unfold Float32.to_int. rewrite (Float32Facts.ceilf_exact v q Hv Hq).
    replace (Float32.INT_MIN <=? Qceiling q) with true
      by (symmetry; apply Z.leb_le; lia).
    by replace (Qceiling q <=? Float32.INT_MAX) with true
      by (symmetry; apply Z.leb_le; lia).
  - intros c f f' w w' Hne Hc.
    destruct c as [image| |flow|image|g|v|N]; cbn [FlowFilter.invoke] in Hc.
    + by apply loadImage_inv in Hc as ->.
    + by apply compute_inv in Hc as ->.
    + by apply bind_inv in Hc as (? & ? & _ & [-> _]%ret_inv).
    + by apply bind_inv in Hc as (? & ? & _ & [-> _]%ret_inv).
    + rewrite call_setGamma_eq in Hc. by injection Hc as <- _.
    + by destruct (Hne v).
    + rewrite call_setSmoothIterations_eq in Hc. by injection Hc as <- _.
  - intros h wd si mf g this f0 f w0 w1 w cs Hnew Hrun.
    destruct (Z_le_gt_dec h 0) as [Hh|Hh];
      [by destruct (new_throws h wd si mf g this w0 (or_introl Hh))
            as (? & ? & Ht); rewrite Ht in Hnew|].
    destruct (Z_le_gt_dec wd 0) as [Hwd|Hwd];
      [by destruct (new_throws h wd si mf g this w0 (or_intror Hwd))
            as (? & ? & Ht); rewrite Ht in Hnew|].
    destruct (new_ok h wd si mf g this w0 ltac:(lia) ltac:(lia))
      as (f1 & w2 & _ & Hn & _ & _ & _ & Hw1 & _).
    rewrite Hn in Hnew. injection Hnew as <- <-.
    apply (wired_setGamma g), (wired_setMaxFlow mf), (wired_setSmoothIterations si) in Hw1.
    eapply wired_out in Hw1.
    destruct (run_wired _ _ _ _ _ Hw1 Hrun) as (Hw & _).
    apply (FlowFilter.wired_iterations _ _ Hw).
Qed.

(** C5.  A height or a width that is not positive makes the constructor
    throw after one line on [std::cerr], with nothing allocated and no
    object produced; with both positive it returns a configured instance
    of those dimensions. *)
Theorem constructor_validates_dimensions
    (h wd si : Z) (mf g : Float32.float) (this : FlowFilter.t) (w0 : world) :
  (h <= 0 \/ wd <= 0 ->
   exists msg n,
     FlowFilter.new h wd si mf g this w0
     = Throw ConstructionError (World (devmem w0) (brk w0) (out w0 ++ [Cerr msg n])))
  /\ (0 < h -> 0 < wd ->
      exists f w,
        FlowFilter.new h wd si mf g this w0 = Ok f w
        /\ FlowFilter.height f = h /\ FlowFilter.width f = wd
        /\ FlowFilter.wired f w).
Proof.
  split.
  - apply new_throws.
  - intros Hh Hwd.
    destruct (new_ok h wd si mf g this w0 Hh Hwd)
      as (f0 & w1 & _ & Hn & Hfh & Hfw & _ & Hw1 & _).
    eexists _, _. split; [exact Hn|]. split; [exact Hfh|]. split; [exact Hfw|].
    by apply wired_setSmoothIterations, wired_setMaxFlow, wired_setGamma, wired_out.
Qed.

(** C6.  On a configured instance, [loadImage] of a host image whose height
    or width differs from the configured one throws ShapeMismatch and
    leaves everything as it was: nothing is uploaded, no bootstrap runs. *)
Theorem loadImage_shape_mismatch (f : FlowFilter.t) (w : world) (image : image_t.t) :
  FlowFilter.wired f w ->
  image_t.height image <> FlowFilter.height f
  \/ image_t.width image <> FlowFilter.width f ->
  FlowFilter.loadImage image f w = Throw ShapeMismatch w.
Proof.
  intros Hw Hd. apply loadImage_mismatch.
  destruct (wired_dims _ _ Hw) as (Hh0 & Hw0 & _).
  unfold GPUImage.compareShape, FlowFilter.height, FlowFilter.width in *.
  rewrite Hh0, Hw0. destruct Hd as [Hd|Hd].
  - by replace (FlowFilter.__height f =? image_t.height image) with false
      by (symmetry; apply Z.eqb_neq; congruence).
  - replace (FlowFilter.__width f =? image_t.width image) with false
      by (symmetry; apply Z.eqb_neq; congruence).
    by rewrite andb_false_r.
Qed.

(** C7.  [getFlow()] is the handle of the update stage's updated flow,
    [downloadFlow] downloads the smoother's smoothed flow, and on a
    configured instance the two are different live device blocks. *)
Theorem getFlow_downloadFlow_distinct (f : FlowFilter.t) (w : world) :
  FlowFilter.wired f w ->
  FlowFilter.getFlow f = FlowUpdate.getUpdatedFlow (FlowFilter.__update f)
  /\ (forall flow : image_t.t,
        FlowFilter.downloadFlow flow f w
        = GPUImage.download flow
            (FlowSmoother.getSmoothedFlow (FlowFilter.__smoother f)) w)
  /\ exists (au asm : addr) (bu bsm : bytes),
       GPUImage.ptr_dev (FlowFilter.getFlow f) = Some au
       /\ GPUImage.ptr_dev (FlowSmoother.getSmoothedFlow (FlowFilter.__smoother f))
          = Some asm
       /\ au <> asm
       /\ devmem w !! au = Some bu /\ devmem w !! asm = Some bsm
       /\ forall flow : image_t.t,
            GPUImage.compareShape flow
              (FlowSmoother.getSmoothedFlow (FlowFilter.__smoother f)) = true ->
            FlowFilter.downloadFlow flow f w = Ok (image_t.with_data bsm flow) w.
Proof.
  intros Hw. do 2 (split; [reflexivity|]). wired_unpack Hw.
  exists a3, a5, b3, b5. do 5 (split; [done|]).
  intros flow Hs. unfold FlowFilter.downloadFlow, GPUImage.download. rewrite Hs.
  by erewrite bind_Ok by (apply read_ok; erewrite contents_Some by eassumption; eassumption).
Qed.

(** C8.  For positive dimensions the constructor returns, having run
    [configure()] and then entered, in this order, [setGamma(gamma)] and
    [setMaxFlow(maxflow)] of the update stage, [setIterations] of the
    propagator with [int(ceilf(maxflow))] and [setIterations] of the
    smoother with [smoothIterations]: the getters read the three arguments
    back in place of the values [configure()] had set, on the buffers
    [configure()] made.  Calling one of the three setters a second time with
    the same value leaves the object as the first call left it, and the
    three calls in any of their six orders leave the same object, the one
    that reads the three values back. *)
Theorem constructor_applies_setters :
  (forall (h wd si : Z) (mf g : Float32.float) (this : FlowFilter.t) (w0 : world),
     0 < h -> 0 < wd ->
     exists (f0 : FlowFilter.t) (w1 : world) (f : FlowFilter.t) (w : world),
       FlowFilter.configure
         (FlowFilter.mk h wd false (FlowFilter.__firstLoad this)
            (FlowFilter.__inputImage this) (FlowFilter.__imageModel this)
            (FlowFilter.__update this) (FlowFilter.__smoother this)
            (FlowFilter.__propagator this)) w0 = Ok f0 w1
       /\ FlowFilter.new h wd si mf g this w0 = Ok f w
       /\ out w = out w1 ++ [ StageSet FlowUpdateStage (Gamma g);
                              StageSet FlowUpdateStage (MaxFlow mf);
                              StageSet FlowPropagatorStage
                                (Iterations (Float32.to_int (Float32.ceilf mf)));
                              StageSet FlowSmootherStage (Iterations si) ]
       /\ devmem w = devmem w1 /\ brk w = brk w1
       /\ FlowFilter.parameters f0 = (Float32.one, Float32.one, 1)
       /\ FlowFilter.parameters f = (g, mf, si)
       /\ FlowFilter.getPropagationIterations f = Float32.to_int (Float32.ceilf mf)
       /\ FlowFilter.buffers f = FlowFilter.buffers f0
       /\ FlowFilter.height f = FlowFilter.height f0
       /\ FlowFilter.width f = FlowFilter.width f0
       /\ FlowFilter.__configured f = FlowFilter.__configured f0
       /\ FlowFilter.__firstLoad f = FlowFilter.__firstLoad f0)
  /\ (forall (f : FlowFilter.t) (w : world) (si : Z) (mf g : Float32.float)
        (c : FlowFilter.call),
        c ∈ [ FlowFilter.SetGamma g; FlowFilter.SetMaxFlow mf;
              FlowFilter.SetSmoothIterations si ] ->
        exists (f1 : FlowFilter.t) (w1 w2 : world),
          FlowFilter.invoke c f w = Ok f1 w1
          /\ FlowFilter.invoke c f1 w1 = Ok f1 w2
          /\ FlowFilter.parameters f1
             = FlowFilter.set_parameter (FlowFilter.parameters f) c
          /\ devmem w2 = devmem w /\ brk w2 = brk w)
  /\ (forall (f : FlowFilter.t) (w : world) (si : Z) (mf g : Float32.float)
        (cs : list FlowFilter.call),
        cs ≡ₚ [ FlowFilter.SetGamma g; FlowFilter.SetMaxFlow mf;
                FlowFilter.SetSmoothIterations si ] ->
        exists (f' : FlowFilter.t) (w' : world),
          FlowFilter.run cs f w = Ok f' w'
          /\ f' = FlowFilter.setSmoothIterations si
                    (FlowFilter.setMaxFlow mf (FlowFilter.setGamma g f))
          /\ FlowFilter.parameters f' = (g, mf, si)
          /\ FlowFilter.getPropagationIterations f'
             = Float32.to_int (Float32.ceilf mf)
          /\ FlowFilter.buffers f' = FlowFilter.buffers f
          /\ devmem w' = devmem w /\ brk w' = brk w).
Proof.
  split; [|split].
  - intros h wd si mf g this w0 Hh Hwd.
    destruct (new_ok h wd si mf g this w0 Hh Hwd) as (f0 & w1 & Hc & Hn & _).
    match type of Hc with FlowFilter.configure ?f _ = _ =>
      destruct (configure_layout f w0)
        as (f' & w' & Hc' & _ & _ & _ & _ & _ & _ & _ & Hp & _) end.
    rewrite Hc in Hc'. injection Hc' as <- <-.
    eexists f0, w1, _, _. split; [exact Hc|]. split; [exact Hn|].
    do 3 (split; [reflexivity|]). split; [exact Hp|]. by repeat split.
  - intros f w si mf g c Hc. rewrite !elem_of_cons, elem_of_nil in Hc.
    destruct Hc as [->|[->|[->|[]]]]; cbn [FlowFilter.invoke].
    + eexists _, _, _. split; [apply call_setGamma_eq|].
      split; [apply (call_setGamma_eq g (FlowFilter.setGamma g f))|]. by repeat split.
    + eexists _, _, _. split; [apply call_setMaxFlow_eq|].
      split; [apply (call_setMaxFlow_eq mf (FlowFilter.setMaxFlow mf f))|].
      by repeat split.
    + eexists _, _, _. split; [apply call_setSmoothIterations_eq|].
      split; [apply (call_setSmoothIterations_eq si (FlowFilter.setSmoothIterations si f))|].
      by repeat split.
  - intros f w si mf g cs Hp. symmetry in Hp. apply permutations_Permutation in Hp.
    cbn in Hp. rewrite !elem_of_cons, elem_of_nil in Hp.
    destruct Hp as [->|[->|[->|[->|[->|[->|[]]]]]]];
      (eexists _, _; split; [reflexivity|]; by repeat split).
Qed.

(** C9.  [setGamma(g)] makes [getGamma()] return [g] and changes nothing
    else: not the other parameters, not the dimensions, not the flags, not
    a buffer handle. *)
Theorem setGamma_frame (g : Float32.float) (f : FlowFilter.t) :
  FlowFilter.getGamma (FlowFilter.setGamma g f) = g
  /\ FlowFilter.getMaxFlow (FlowFilter.setGamma g f) = FlowFilter.getMaxFlow f
  /\ FlowFilter.getSmoothIterations (FlowFilter.setGamma g f)
     = FlowFilter.getSmoothIterations f
  /\ FlowFilter.getPropagationIterations (FlowFilter.setGamma g f)
     = FlowFilter.getPropagationIterations f
  /\ FlowFilter.height (FlowFilter.setGamma g f) = FlowFilter.height f
  /\ FlowFilter.width (FlowFilter.setGamma g f) = FlowFilter.width f
  /\ FlowFilter.__configured (FlowFilter.setGamma g f) = FlowFilter.__configured f
  /\ FlowFilter.__firstLoad (FlowFilter.setGamma g f) = FlowFilter.__firstLoad f
  /\ FlowFilter.buffers (FlowFilter.setGamma g f) = FlowFilter.buffers f.
Proof. by repeat split. Qed.

(** C10.  [FlowFilter()] returns without touching the world (nothing is
    allocated, [configure()] does not run) an instance with height 0,
    width 0 and [__configured] false, although the constructor with
    parameters throws on those dimensions. *)
Theorem default_constructor_unconfigured (this : FlowFilter.t) (w0 : world) :
  exists f,
    FlowFilter.new_default this w0 = Ok f w0
    /\ FlowFilter.height f = 0
    /\ FlowFilter.width f = 0
    /\ FlowFilter.__configured f = false
    /\ FlowFilter.buffers f = FlowFilter.buffers this
    /\ forall (si : Z) (mf g : Float32.float),
         exists w',
           FlowFilter.new (FlowFilter.height f) (FlowFilter.width f) si mf g this w0
           = Throw ConstructionError w'.
Proof.
  eexists. split; [reflexivity|]. do 4 (split; [reflexivity|]).
  intros si mf g. eexists. reflexivity.
Qed.

(** ** More about the buffers: what a returning primitive did *)

Lemma no_alloc_refl (w : world) : no_alloc w w.
Proof. by split. Qed.

Lemma no_alloc_trans (w1 w2 w3 : world) :
  no_alloc w1 w2 -> no_alloc w2 w3 -> no_alloc w1 w3.
Proof. intros [H1 H2] [H3 H4]. split; congruence. Qed.

Lemma emit_no_alloc (ev : event) (u : unit) (w w' : world) :
  emit ev w = Ok u w' -> no_alloc w w'.
Proof. intros [= _ <-]. by split. Qed.

Lemma read_inv (g : GPUImage.t) (b : bytes) (w w' : world) :
  GPUImage.read g w = Ok b w' -> w' = w /\ GPUImage.contents g w = Some b.
Proof.
  unfold GPUImage.read. destruct (GPUImage.contents g w); [|done].
  by intros [= -> ->].
Qed.

Lemma write_no_alloc (b : bytes) (g : GPUImage.t) (u : unit) (w w' : world) :
  GPUImage.write b g w = Ok u w' -> no_alloc w w'.
Proof.
  unfold GPUImage.write. destruct (GPUImage.ptr_dev g) as [a|]; [|done].
  destruct (devmem w !! a) as [old|] eqn:Ha; [|done].
  intros [= _ <-]. split; [done|]. cbn [devmem].
  apply dom_insert_lookup_L. by rewrite Ha.
Qed.

Lemma download_ok (img : image_t.t) (g : GPUImage.t) (w : world) (b : bytes) :
  GPUImage.compareShape img g = true -> GPUImage.contents g w = Some b ->
  GPUImage.download img g w = Ok (image_t.with_data b img) w.
Proof.
  intros Hs Hb. unfold GPUImage.download. rewrite Hs.
  by erewrite bind_Ok by (apply read_ok; exact Hb).
Qed.

(** Splits a returning sequence of binds in a hypothesis into its steps. *)
Ltac split_binds H :=
  repeat match type of H with
         | (_ ≫= _) _ = Ok _ _ =>
             let H1 := fresh "Hstep" in
             apply bind_inv in H as (? & ? & H1 & H)
         end.

Ltac step_no_alloc :=
  repeat match goal with
         | H : emit _ _ = Ok _ _ |- _ => apply emit_no_alloc in H
         | H : GPUImage.read _ _ = Ok _ _ |- _ => apply read_inv in H as [-> _]
         | H : GPUImage.write _ _ _ = Ok _ _ |- _ => apply write_no_alloc in H
         | H : GPUImage.clear _ _ = Ok _ _ |- _ => apply write_no_alloc in H
         end;
  repeat match goal with
         | H1 : no_alloc ?a ?b, H2 : no_alloc ?b ?c |- _ =>
             pose proof (no_alloc_trans _ _ _ H1 H2); clear H2
         end.

Lemma ImageModel_compute_no_alloc (m : ImageModel.t) (u : unit) (w w' : world) :
  ImageModel.compute m w = Ok u w' -> no_alloc w w'.
Proof.
  unfold ImageModel.compute. intros H. split_binds H. cbv zeta in *.
  split_binds Hstep1. step_no_alloc. eauto using no_alloc_trans.
Qed.

Ltac solve_no_alloc H :=
  split_binds H; cbv zeta in *;
  repeat match goal with
         | H' : (_ ≫= _) _ = Ok _ _ |- _ => progress split_binds H'
         end;
  step_no_alloc; eauto using no_alloc_refl, no_alloc_trans.

Lemma FlowPropagator_compute_no_alloc (p : FlowPropagator.t) (u : unit) (w w' : world) :
  FlowPropagator.compute p w = Ok u w' -> no_alloc w w'.
Proof. unfold FlowPropagator.compute. intros H. solve_no_alloc H. Qed.

Lemma FlowUpdate_compute_no_alloc (p : FlowUpdate.t) (u : unit) (w w' : world) :
  FlowUpdate.compute p w = Ok u w' -> no_alloc w w'.
Proof. unfold FlowUpdate.compute. intros H. solve_no_alloc H. Qed.

Lemma FlowSmoother_compute_no_alloc (s : FlowSmoother.t) (u : unit) (w w' : world) :
  FlowSmoother.compute s w = Ok u w' -> no_alloc w w'.
Proof. unfold FlowSmoother.compute. intros H. solve_no_alloc H. Qed.

Lemma upload_no_alloc (img : image_t.t) (g : GPUImage.t) (u : unit) (w w' : world) :
  GPUImage.upload img g w = Ok u w' -> no_alloc w w'.
Proof.
  unfold GPUImage.upload. destruct (GPUImage.compareShape img g); [|done].
  apply write_no_alloc.
Qed.

Lemma copyFrom_no_alloc (src g : GPUImage.t) (u : unit) (w w' : world) :
  GPUImage.copyFrom src g w = Ok u w' -> no_alloc w w'.
Proof. unfold GPUImage.copyFrom. intros H. solve_no_alloc H. Qed.

Lemma compute_no_alloc (f f' : FlowFilter.t) (w w' : world) :
  FlowFilter.compute f w = Ok f' w' -> no_alloc w w'.
Proof.
  unfold FlowFilter.compute, startTiming, stopTiming. intros H. split_binds H.
  apply ret_inv in H as [_ ->].
  repeat match goal with
         | H : emit _ _ = Ok _ _ |- _ => apply emit_no_alloc in H
         | H : ImageModel.compute _ _ = Ok _ _ |- _ =>
             apply ImageModel_compute_no_alloc in H
         | H : FlowPropagator.compute _ _ = Ok _ _ |- _ =>
             apply FlowPropagator_compute_no_alloc in H
         | H : FlowUpdate.compute _ _ = Ok _ _ |- _ =>
             apply FlowUpdate_compute_no_alloc in H
         | H : FlowSmoother.compute _ _ = Ok _ _ |- _ =>
             apply FlowSmoother_compute_no_alloc in H
         end.
  eauto 10 using no_alloc_trans.
Qed.

Lemma loadImage_no_alloc (image : image_t.t) (f f' : FlowFilter.t) (w w' : world) :
  FlowFilter.loadImage image f w = Ok f' w' -> no_alloc w w'.
Proof.
  unfold FlowFilter.loadImage. intros (? & w1 & Hu%upload_no_alloc & H)%bind_inv.
  destruct (FlowFilter.__firstLoad f).
  - split_binds H. apply ret_inv in H as [_ ->].
    repeat match goal with
           | H : emit _ _ = Ok _ _ |- _ => apply emit_no_alloc in H
           | H : ImageModel.compute _ _ = Ok _ _ |- _ =>
               apply ImageModel_compute_no_alloc in H
           | H : GPUImage.copyFrom _ _ _ = Ok _ _ |- _ =>
               apply copyFrom_no_alloc in H
           end.
    eauto 10 using no_alloc_trans.
  - by apply ret_inv in H as [_ ->].
Qed.

(** What a returning call leaves as it was: the dimensions, the
    [__configured] flag, every buffer handle, and the set of device
    blocks. *)
Lemma invoke_frame (c : FlowFilter.call) (f f' : FlowFilter.t) (w w' : world) :
  FlowFilter.invoke c f w = Ok f' w' ->
  no_alloc w w'
  /\ FlowFilter.buffers f' = FlowFilter.buffers f
  /\ FlowFilter.height f' = FlowFilter.height f
  /\ FlowFilter.width f' = FlowFilter.width f
  /\ FlowFilter.__configured f' = FlowFilter.__configured f
  /\ FlowFilter.parameters f' = FlowFilter.set_parameter (FlowFilter.parameters f) c.
Proof.
  intros Hc. destruct c as [image| |flow|image|g|v|N]; cbn [FlowFilter.invoke] in Hc.
  - split; [by eapply loadImage_no_alloc|]. by apply loadImage_inv in Hc as ->.
  - split; [by eapply compute_no_alloc|]. by apply compute_inv in Hc as ->.
  - apply bind_inv in Hc as (? & ? & ->%download_inv & [-> ->]%ret_inv).
    by split; [apply no_alloc_refl|].
  - apply bind_inv in Hc as (? & ? & ->%download_inv & [-> ->]%ret_inv).
    by split; [apply no_alloc_refl|].
  - rewrite call_setGamma_eq in Hc. injection Hc as <- <-. by split.
  - rewrite call_setMaxFlow_eq in Hc. injection Hc as <- <-. by split.
  - rewrite call_setSmoothIterations_eq in Hc. injection Hc as <- <-. by split.
Qed.

(** ** Further properties *)

(** X1.  Over any sequence of calls that returns, nothing is allocated or
    released, every buffer handle of the instance stays the same, and so
    do [height()], [width()] and [__configured]: only [configure()]
    allocates. *)
Theorem run_never_reallocates
    (cs : list FlowFilter.call) (f f' : FlowFilter.t) (w w' : world) :
  FlowFilter.run cs f w = Ok f' w' ->
  no_alloc w w'
  /\ FlowFilter.buffers f' = FlowFilter.buffers f
  /\ FlowFilter.height f' = FlowFilter.height f
  /\ FlowFilter.width f' = FlowFilter.width f
  /\ FlowFilter.__configured f' = FlowFilter.__configured f.
Proof.
  revert f w. induction cs as [|c cs IH]; intros f w Hr; cbn [FlowFilter.run] in Hr.
  - apply ret_inv in Hr as [-> ->]. by split; [apply no_alloc_refl|].
  - apply bind_inv in Hr as (f1 & w1 & Hc & Hr).
    destruct (invoke_frame _ _ _ _ _ Hc) as (Ha & Hb & Hh & Hw & Hcf & _).
    destruct (IH _ _ Hr) as (Ha' & Hb' & Hh' & Hw' & Hcf').
    split; [by eapply no_alloc_trans|]. repeat split; congruence.
Qed.

(** X2.  Over any sequence of calls that returns, the three parameters read
    back by [getGamma()], [getMaxFlow()] and [getSmoothIterations()] are
    those of the last setter called for each (the initial ones where none
    was): [loadImage], [compute] and the downloads leave them alone. *)
Theorem run_parameters
    (cs : list FlowFilter.call) (f f' : FlowFilter.t) (w w' : world) :
  FlowFilter.run cs f w = Ok f' w' ->
  FlowFilter.parameters f'
  = fold_left FlowFilter.set_parameter cs (FlowFilter.parameters f).
Proof.
  revert f w. induction cs as [|c cs IH]; intros f w Hr; cbn [FlowFilter.run] in Hr.
  - by apply ret_inv in Hr as [-> ->].
  - apply bind_inv in Hr as (f1 & w1 & Hc & Hr).
    destruct (invoke_frame _ _ _ _ _ Hc) as (_ & _ & _ & _ & _ & Hp).
    rewrite (IH _ _ Hr), Hp. reflexivity.
Qed.

(** X3.  [configure()] reads nothing of the instance but its two
    dimensions: two objects of the same dimensions are configured into the
    same instance, whatever parameters and flags they held.  The result has
    gamma 1.0, maxflow 1.0, one smoothing and one propagation iteration,
    and [__firstLoad] true. *)
Theorem configure_forgets (f1 f2 : FlowFilter.t) (w : world) :
  FlowFilter.height f1 = FlowFilter.height f2 ->
  FlowFilter.width f1 = FlowFilter.width f2 ->
  exists f' w',
    FlowFilter.configure f1 w = Ok f' w'
    /\ FlowFilter.configure f2 w = Ok f' w'
    /\ FlowFilter.parameters f' = (Float32.one, Float32.one, 1)
    /\ FlowFilter.getPropagationIterations f' = 1
    /\ FlowFilter.__firstLoad f' = true.
Proof.
  unfold FlowFilter.height, FlowFilter.width. intros Hh Hw.
  destruct (configure_layout f1 w)
    as (f' & w' & Hc & _ & _ & _ & _ & _ & _ & _ & Hp & Hn).
  destruct (configure_spec f1 w) as (f'' & w'' & Hc' & _ & _ & Hfl & _).
  rewrite Hc in Hc'. injection Hc' as <- <-.
  exists f', w'. split; [exact Hc|]. split; [|by repeat split].
  rewrite <- Hc. unfold FlowFilter.configure. by rewrite Hh, Hw.
Qed.

(** X4.  [configure()] leaks nothing: when it returns, every device block
    that was not there before belongs to one of the seven buffers of the
    instance, which are live and pairwise distinct.  The block of the local
    dummy flow is freed, and the update stage reads the propagated flow in
    its place. *)
Theorem configure_releases_dummy (f : FlowFilter.t) (w : world) :
  exists f' w',
    FlowFilter.configure f w = Ok f' w'
    /\ FlowUpdate.inputFlow (FlowFilter.__update f')
       = FlowPropagator.getPropagatedFlow (FlowFilter.__propagator f')
    /\ (forall a : addr,
          devmem w !! a = None -> is_Some (devmem w' !! a) ->
          Some a ∈ (GPUImage.ptr_dev <$> FlowFilter.buffers f'))
    /\ Forall (fun g => is_Some (GPUImage.contents g w')) (FlowFilter.buffers f')
    /\ NoDup (GPUImage.ptr_dev <$> FlowFilter.buffers f').
Proof.
  destruct (configure_layout f w)
    as (f' & w' & Hc & Hb & _ & Hfr & _ & _ & _ & Hd & _).
  destruct (configure_spec f w) as (f'' & w'' & Hc' & _ & _ & _ & _ & _ & Hw & _).
  rewrite Hc in Hc'. injection Hc' as <- <-.
  exists f', w'. split; [exact Hc|].
  split; [apply (FlowFilter.wired_update_flow _ _ Hw)|].
  split; [|split; [apply (FlowFilter.wired_live _ _ Hw)|
                   apply (FlowFilter.wired_distinct _ _ Hw)]].
  intros a Hnew Hlive. rewrite Hb. cbn [fmap list_fmap]. unfold addr in *.
  destruct (decide ((a < brk w)%positive \/ (brk w + 8 <= a)%positive)) as [Hout|Hin].
  { rewrite (Hfr a Hout), Hnew in Hlive. by destruct Hlive. }
  assert (a = brk w \/ a = (brk w + 1)%positive \/ a = (brk w + 2)%positive
          \/ a = (brk w + 3)%positive \/ a = (brk w + 4)%positive
          \/ a = (brk w + 5)%positive \/ a = (brk w + 6)%positive
          \/ a = (brk w + 7)%positive) as Ha by lia.
  destruct Ha as [->|[->|[->|[->|[->|[->|[->| ->]]]]]]];
    try (repeat first [ apply list_elem_of_here | apply list_elem_of_further ]).
  rewrite Hd in Hlive. by destruct Hlive.
Qed.

(** Setting each parameter to the value it has changes nothing, on an
    instance whose propagation count is the derived one. *)
Lemma setters_same (f : FlowFilter.t) :
  FlowFilter.getPropagationIterations f
  = Float32.to_int (Float32.ceilf (FlowFilter.getMaxFlow f)) ->
  FlowFilter.setSmoothIterations (FlowFilter.getSmoothIterations f)
    (FlowFilter.setMaxFlow (FlowFilter.getMaxFlow f)
       (FlowFilter.setGamma (FlowFilter.getGamma f) f)) = f.
Proof.
  destruct f as [? ? ? ? ? ? [] [] []].
  unfold FlowFilter.getPropagationIterations, FlowFilter.getMaxFlow,
    FlowFilter.getSmoothIterations, FlowFilter.getGamma,
    FlowFilter.setSmoothIterations, FlowFilter.setMaxFlow, FlowFilter.setGamma.
  cbn. by intros <-.
Qed.

(** X5.  The two-argument constructor, on positive dimensions, returns
    the instance [configure()] returns, in the device memory [configure()]
    leaves: the defaults it passes on (one smoothing iteration, maxflow
    1.0, gamma 1.0) are the values [configure()] has already set, so that
    its setter calls only add their four entries to the log.  On a
    dimension that is not positive it throws like the five-argument one. *)
Theorem new_hw_is_configure (h wd : Z) (this : FlowFilter.t) (w0 : world) :
  (0 < h -> 0 < wd ->
   exists (f : FlowFilter.t) (w : world),
     FlowFilter.configure
       (FlowFilter.mk h wd false (FlowFilter.__firstLoad this)
          (FlowFilter.__inputImage this) (FlowFilter.__imageModel this)
          (FlowFilter.__update this) (FlowFilter.__smoother this)
          (FlowFilter.__propagator this)) w0 = Ok f w
     /\ FlowFilter.new_hw h wd this w0
        = Ok f (World (devmem w) (brk w)
                  (out w ++ [ StageSet FlowUpdateStage (Gamma Float32.one);
                              StageSet FlowUpdateStage (MaxFlow Float32.one);
                              StageSet FlowPropagatorStage (Iterations 1);
                              StageSet FlowSmootherStage (Iterations 1) ])))
  /\ (h <= 0 \/ wd <= 0 ->
      exists w, FlowFilter.new_hw h wd this w0 = Throw ConstructionError w
                /\ no_alloc w0 w).
Proof.
  split.
  - intros Hh Hwd. unfold FlowFilter.new_hw.
    destruct (new_ok h wd 1 Float32.one Float32.one this w0 Hh Hwd)
      as (f0 & w1 & Hc & Hn & _).
    exists f0, w1. split; [exact Hc|]. rewrite Hn.
    match type of Hc with FlowFilter.configure ?f _ = _ =>
      destruct (configure_layout f w0)
        as (f' & w' & Hc' & _ & _ & _ & _ & _ & _ & _ & Hp & Hi) end.
    rewrite Hc in Hc'. injection Hc' as <- <-.
    injection Hp as Hg Hm Hs.
    change (Float32.to_int (Float32.ceilf Float32.one)) with 1. f_equal.
    transitivity
      (FlowFilter.setSmoothIterations (FlowFilter.getSmoothIterations f0)
         (FlowFilter.setMaxFlow (FlowFilter.getMaxFlow f0)
            (FlowFilter.setGamma (FlowFilter.getGamma f0) f0)));
      [by rewrite Hg, Hm, Hs|].
    apply setters_same. by rewrite Hi, Hm.
  - intros Hd. unfold FlowFilter.new_hw.
    destruct (new_throws h wd 1 Float32.one Float32.one this w0 Hd) as (msg & n & Ht).
    eexists. split; [exact Ht|]. by split.
Qed.

(** X6.  When the five-argument constructor returns, the getters read its
    arguments back, the propagation count is [int(ceilf(maxflow))], the
    dimensions were positive, [__firstLoad] is true, the log gained the
    four entries of its setter calls and nothing else (nothing was written
    to the console), and eight device blocks were allocated. *)
Theorem new_reads_back
    (h wd si : Z) (mf g : Float32.float) (this f : FlowFilter.t) (w0 w : world) :
  FlowFilter.new h wd si mf g this w0 = Ok f w ->
  FlowFilter.parameters f = (g, mf, si)
  /\ FlowFilter.getPropagationIterations f = Float32.to_int (Float32.ceilf mf)
  /\ FlowFilter.height f = h /\ FlowFilter.width f = wd
  /\ 0 < h /\ 0 < wd
  /\ FlowFilter.__firstLoad f = true
  /\ out w = out w0 ++ [ StageSet FlowUpdateStage (Gamma g);
                         StageSet FlowUpdateStage (MaxFlow mf);
                         StageSet FlowPropagatorStage
                           (Iterations (Float32.to_int (Float32.ceilf mf)));
                         StageSet FlowSmootherStage (Iterations si) ]
  /\ brk w = (brk w0 + 8)%positive.
Proof.
  intros Hnew.
  destruct (Z_le_gt_dec h 0) as [Hh|Hh];
    [by destruct (new_throws h wd si mf g this w0 (or_introl Hh))
          as (? & ? & Ht); rewrite Ht in Hnew|].
  destruct (Z_le_gt_dec wd 0) as [Hwd|Hwd];
    [by destruct (new_throws h wd si mf g this w0 (or_intror Hwd))
          as (? & ? & Ht); rewrite Ht in Hnew|].
  destruct (new_ok h wd si mf g this w0 ltac:(lia) ltac:(lia))
    as (f0 & w1 & Hc & Hn & Hfh & Hfw & Hfl & _ & Hout).
  rewrite Hn in Hnew. injection Hnew as <- <-.
  match type of Hc with FlowFilter.configure ?f _ = _ =>
    destruct (configure_layout f w0)
      as (f' & w' & Hc' & _ & Hbrk & _) end.
  rewrite Hc in Hc'. injection Hc' as <- <-.
  split; [reflexivity|]. split; [reflexivity|].
  split; [exact Hfh|]. split; [exact Hfw|].
  split; [lia|]. split; [lia|]. split; [exact Hfl|].
  cbn [out brk]. by rewrite Hout.
Qed.

(** X9.  Two [compute()] calls in a row close the feedback loop: in the
    second cycle the propagator warps the smoothed flow the first cycle
    wrote, and the update stage starts from the updated image the first
    cycle wrote; the image model sees the same input image both times. *)
Theorem compute_twice_feeds_back (f : FlowFilter.t) (w : world) :
  FlowFilter.wired f w ->
  exists (img s1 u1 : bytes) (w1 w2 : world),
    FlowFilter.compute f w = Ok f w1
    /\ FlowFilter.compute f w1 = Ok f w2
    /\ out w2 = out w ++ cycle_log ++ cycle_log
    /\ GPUImage.contents (FlowFilter.__inputImage f) w = Some img
    /\ GPUImage.contents (FlowSmoother.getSmoothedFlow (FlowFilter.__smoother f)) w1
       = Some s1
    /\ GPUImage.contents (FlowUpdate.getUpdatedImage (FlowFilter.__update f)) w1
       = Some u1
    /\ let h := FlowFilter.height f in
       let wd := FlowFilter.width f in
       let m := imageModel_kernel h wd img in
       let p := propagator_kernel h wd (FlowFilter.getPropagationIterations f) s1 in
       let u := update_kernel h wd (FlowFilter.getGamma f) (FlowFilter.getMaxFlow f)
                              p (fst m) (snd m) u1 in
       GPUImage.contents
         (FlowPropagator.getPropagatedFlow (FlowFilter.__propagator f)) w2 = Some p
       /\ GPUImage.contents (FlowFilter.getFlow f) w2 = Some (fst u)
       /\ GPUImage.contents (FlowUpdate.getUpdatedImage (FlowFilter.__update f)) w2
          = Some (snd u)
       /\ GPUImage.contents (FlowSmoother.getSmoothedFlow (FlowFilter.__smoother f)) w2
          = Some (smoother_kernel h wd (FlowFilter.getSmoothIterations f) (fst u)).
Proof.
  intros Hw.
  destruct (compute_spec f w Hw)
    as (img & s0 & u0 & w1 & Hi & _ & _ & Hc1 & Ho1 & _ & _ & Hw1
        & Hi1 & _ & _ & _ & _ & Hu1 & Hs1).
  destruct (compute_spec f w1 Hw1)
    as (img' & s1 & u1 & w2 & Hi' & Hs1' & Hu1' & Hc2 & Ho2 & _ & _ & _
        & _ & _ & _ & Hp2 & Hf2 & Hu2 & Hs2).
  rewrite Hi1 in Hi'. injection Hi' as <-.
  exists img, s1, u1, w1, w2.
  split; [exact Hc1|]. split; [exact Hc2|].
  split; [by rewrite Ho2, Ho1, <- app_assoc|].
  split; [exact Hi|]. split; [exact Hs1'|]. split; [exact Hu1'|].
  cbv zeta. by repeat split.
Qed.

(** X10.  Two [loadImage()] calls in a row on a fresh instance: the second
    image replaces the first in the input buffer, the bootstrap runs once,
    and the updated image and the image constant still hold what the image
    model made of the first image. *)
Theorem loadImage_twice (f : FlowFilter.t) (w : world) (image1 image2 : image_t.t) :
  FlowFilter.wired f w ->
  FlowFilter.__firstLoad f = true ->
  GPUImage.compareShape image1 (FlowFilter.__inputImage f) = true ->
  GPUImage.compareShape image2 (FlowFilter.__inputImage f) = true ->
  exists w1 w2,
    FlowFilter.loadImage image1 f w = Ok (FlowFilter.set_firstLoad false f) w1
    /\ FlowFilter.loadImage image2 (FlowFilter.set_firstLoad false f) w1
       = Ok (FlowFilter.set_firstLoad false f) w2
    /\ FlowFilter.bootstraps (out w2) = (FlowFilter.bootstraps (out w) + 1)%nat
    /\ GPUImage.contents (FlowFilter.__inputImage f) w2 = Some (image_t.data image2)
    /\ GPUImage.contents (FlowUpdate.getUpdatedImage (FlowFilter.__update f)) w2
       = Some (fst (imageModel_kernel (FlowFilter.height f) (FlowFilter.width f)
                                      (image_t.data image1)))
    /\ GPUImage.contents
         (ImageModel.getImageConstant (FlowFilter.__imageModel f)) w2
       = Some (fst (imageModel_kernel (FlowFilter.height f) (FlowFilter.width f)
                                      (image_t.data image1))).
Proof.
  intros Hw Hfl Hs1 Hs2.
  destruct (loadImage_first f w image1 Hw Hs1 Hfl)
    as (w1 & Hl1 & Ho1 & _ & Hw1 & _ & Hc1 & Hu1).
  destruct (loadImage_later (FlowFilter.set_firstLoad false f) w1 image2 Hw1 Hs2 eq_refl)
    as (w2 & Hl2 & Ho2 & _ & _ & Hi2 & Hrest).
  exists w1, w2. split; [exact Hl1|]. split; [exact Hl2|].
  split; [by rewrite Ho2, Ho1, bootstraps_app, bootstraps_first_load|].
  split; [exact Hi2|].
  unfold FlowFilter.buffers in Hrest. cbn [tail] in Hrest.
  rewrite !Forall_cons in Hrest. destruct Hrest as (Hrc & _ & _ & Hru & _).
  split.
  - etransitivity; [exact Hru|]. by rewrite <- Hc1.
  - etransitivity; [exact Hrc|]. exact Hc1.
Qed.

(** X11.  After the first [loadImage()], [downloadImage()] into a buffer
    of the updated image's shape returns the image constant the image model
    computed from the loaded image, and reads only: the world is as
    [loadImage()] left it. *)
Theorem downloadImage_after_first_load
    (f : FlowFilter.t) (w : world) (image host : image_t.t) :
  FlowFilter.wired f w ->
  FlowFilter.__firstLoad f = true ->
  GPUImage.compareShape image (FlowFilter.__inputImage f) = true ->
  GPUImage.compareShape host
    (FlowUpdate.getUpdatedImage (FlowFilter.__update f)) = true ->
  exists w1,
    FlowFilter.loadImage image f w = Ok (FlowFilter.set_firstLoad false f) w1
    /\ FlowFilter.downloadImage host (FlowFilter.set_firstLoad false f) w1
       = Ok (image_t.with_data
               (fst (imageModel_kernel (FlowFilter.height f) (FlowFilter.width f)
                                       (image_t.data image)))
               host) w1.
Proof.
  intros Hw Hfl Hs Hh.
  destruct (loadImage_first f w image Hw Hs Hfl)
    as (w1 & Hl & _ & _ & _ & _ & Hc & Hu).
  exists w1. split; [exact Hl|]. unfold FlowFilter.downloadImage.
  apply download_ok; [exact Hh|]. cbn [FlowFilter.set_firstLoad FlowFilter.__update].
  by rewrite Hu.
Qed.

(** X12.  [compute()] has no guard on [__firstLoad]: on a fresh instance it
    returns without any image loaded, and a [loadImage()] after it still
    runs the bootstrap, which overwrites the updated image that cycle
    produced with the image constant of the loaded image. *)
Theorem compute_before_first_load
    (f : FlowFilter.t) (w : world) (image : image_t.t) :
  FlowFilter.wired f w ->
  FlowFilter.__firstLoad f = true ->
  GPUImage.compareShape image (FlowFilter.__inputImage f) = true ->
  exists w1 w2,
    FlowFilter.compute f w = Ok f w1
    /\ FlowFilter.loadImage image f w1 = Ok (FlowFilter.set_firstLoad false f) w2
    /\ out w2 = out w ++ cycle_log
                      ++ [ Cout "FlowFilter::loadImage(): fisrt load";
                           StageCompute ImageModelStage ]
    /\ GPUImage.contents (FlowUpdate.getUpdatedImage (FlowFilter.__update f)) w2
       = Some (fst (imageModel_kernel (FlowFilter.height f) (FlowFilter.width f)
                                      (image_t.data image))).
Proof.
  intros Hw Hfl Hs.
  destruct (compute_spec f w Hw)
    as (? & ? & ? & w1 & _ & _ & _ & Hc & Ho1 & _ & _ & Hw1 & _).
  destruct (loadImage_first f w1 image Hw1 Hs Hfl)
    as (w2 & Hl & Ho2 & _ & _ & _ & Hc2 & Hu2).
  exists w1, w2. split; [exact Hc|]. split; [exact Hl|].
  split; [by rewrite Ho2, Ho1, <- app_assoc|]. by rewrite Hu2.
Qed.


(** The first load writes the input image, the image constant, the image
    gradient and the updated image; the three flow buffers keep their
    contents. *)
Lemma loadImage_first_flows (f : FlowFilter.t) (w w' : world) (image : image_t.t) :
  FlowFilter.wired f w ->
  FlowFilter.__firstLoad f = true ->
  FlowFilter.loadImage image f w = Ok (FlowFilter.set_firstLoad false f) w' ->
  GPUImage.contents (FlowFilter.getFlow f) w'
  = GPUImage.contents (FlowFilter.getFlow f) w
  /\ GPUImage.contents (FlowSmoother.getSmoothedFlow (FlowFilter.__smoother f)) w'
     = GPUImage.contents (FlowSmoother.getSmoothedFlow (FlowFilter.__smoother f)) w
  /\ GPUImage.contents
       (FlowPropagator.getPropagatedFlow (FlowFilter.__propagator f)) w'
     = GPUImage.contents
         (FlowPropagator.getPropagatedFlow (FlowFilter.__propagator f)) w.
Proof.
  intros Hw Hfirst Hl.
  destruct (GPUImage.compareShape image (FlowFilter.__inputImage f)) eqn:Hshape;
    [|by rewrite loadImage_mismatch in Hl].
  wired_unpack Hw. revert Hl. unfold FlowFilter.loadImage.
  mstep ltac:(eapply upload_ok; [exact Hshape | solve_ptr | solve_live]).
  rewrite Hfirst.
  mstep ltac:(apply emit_eq).
  erewrite (bind_Ok (ImageModel.compute _));
    [|eapply ImageModel_compute_ok; rewrite ?Hwm;
      [solve_ptr | solve_ptr | solve_ptr | solve_lookup | solve_live | solve_live]].
  cbv beta zeta. cbn [devmem brk out].
  mstep ltac:(eapply copyFrom_ok; [solve_ptr | solve_ptr | solve_lookup | solve_live]).
  intros [= <-].
  unfold FlowFilter.getFlow, FlowUpdate.getUpdatedFlow, FlowSmoother.getSmoothedFlow,
    FlowPropagator.getPropagatedFlow.
  repeat split; erewrite !contents_Some by solve_ptr; cbn [devmem];
    by repeat (rewrite lookup_insert_ne by done).
Qed.

(** X13.  The first frame: [loadImage()], [compute()], [downloadFlow()] on
    a fresh instance.  The flow handed back is the smoothed update of the
    propagated previous flow, where the update stage compares the image
    constant of the loaded image with itself: the bootstrap has seeded the
    updated image with that same constant. *)
Theorem first_frame_flow (f : FlowFilter.t) (w : world) (image host : image_t.t) :
  FlowFilter.wired f w ->
  FlowFilter.__firstLoad f = true ->
  GPUImage.compareShape image (FlowFilter.__inputImage f) = true ->
  GPUImage.compareShape host
    (FlowSmoother.getSmoothedFlow (FlowFilter.__smoother f)) = true ->
  exists (s0 : bytes) (w1 w2 : world),
    GPUImage.contents (FlowSmoother.getSmoothedFlow (FlowFilter.__smoother f)) w
    = Some s0
    /\ FlowFilter.loadImage image f w = Ok (FlowFilter.set_firstLoad false f) w1
    /\ FlowFilter.compute (FlowFilter.set_firstLoad false f) w1
       = Ok (FlowFilter.set_firstLoad false f) w2
    /\ let h := FlowFilter.height f in
       let wd := FlowFilter.width f in
       let m := imageModel_kernel h wd (image_t.data image) in
       let p := propagator_kernel h wd (FlowFilter.getPropagationIterations f) s0 in
       let u := update_kernel h wd (FlowFilter.getGamma f) (FlowFilter.getMaxFlow f)
                              p (fst m) (snd m) (fst m) in
       FlowFilter.downloadFlow host (FlowFilter.set_firstLoad false f) w2
       = Ok (image_t.with_data
               (smoother_kernel h wd (FlowFilter.getSmoothIterations f) (fst u))
               host) w2.
Proof.
  intros Hw Hfl Hs Hh.
  destruct (loadImage_first f w image Hw Hs Hfl)
    as (w1 & Hl & _ & _ & Hw1 & Hi1 & Hc1 & Hu1).
  destruct (loadImage_first_flows f w w1 image Hw Hfl Hl) as (_ & Hsm & _).
  destruct (compute_spec _ _ Hw1)
    as (img & s0 & old & w2 & Hi & Hs0 & Hold & Hc & _ & _ & _ & _
        & _ & _ & _ & _ & _ & _ & Hs2).
  cbn [FlowFilter.set_firstLoad FlowFilter.__inputImage FlowFilter.__smoother
       FlowFilter.__update FlowFilter.__imageModel FlowFilter.__propagator
       FlowFilter.height FlowFilter.width FlowFilter.__height FlowFilter.__width
       FlowFilter.getPropagationIterations FlowFilter.getGamma FlowFilter.getMaxFlow
       FlowFilter.getSmoothIterations] in Hi, Hs0, Hold, Hs2.
  rewrite Hi1 in Hi. injection Hi as <-.
  rewrite Hu1, Hc1 in Hold. injection Hold as <-.
  exists s0, w1, w2. split; [by rewrite <- Hsm|]. split; [exact Hl|].
  split; [exact Hc|]. cbv zeta. unfold FlowFilter.downloadFlow.
  apply download_ok; [exact Hh|]. exact Hs2.
Qed.

(** X14.  A later frame: [loadImage()], [compute()], [downloadFlow()] once
    the bootstrap is over.  The load changes the input image only, so the
    flow handed back is computed from the new image, the smoothed flow of
    the previous cycle and the updated image of the previous cycle. *)
Theorem later_frame_flow (f : FlowFilter.t) (w : world) (image host : image_t.t) :
  FlowFilter.wired f w ->
  FlowFilter.__firstLoad f = false ->
  GPUImage.compareShape image (FlowFilter.__inputImage f) = true ->
  GPUImage.compareShape host
    (FlowSmoother.getSmoothedFlow (FlowFilter.__smoother f)) = true ->
  exists (s0 u0 : bytes) (w1 w2 : world),
    GPUImage.contents (FlowSmoother.getSmoothedFlow (FlowFilter.__smoother f)) w
    = Some s0
    /\ GPUImage.contents (FlowUpdate.getUpdatedImage (FlowFilter.__update f)) w
       = Some u0
    /\ FlowFilter.loadImage image f w = Ok f w1
    /\ FlowFilter.compute f w1 = Ok f w2
    /\ let h := FlowFilter.height f in
       let wd := FlowFilter.width f in
       let m := imageModel_kernel h wd (image_t.data image) in
       let p := propagator_kernel h wd (FlowFilter.getPropagationIterations f) s0 in
       let u := update_kernel h wd (FlowFilter.getGamma f) (FlowFilter.getMaxFlow f)
                              p (fst m) (snd m) u0 in
       FlowFilter.downloadFlow host f w2
       = Ok (image_t.with_data
               (smoother_kernel h wd (FlowFilter.getSmoothIterations f) (fst u))
               host) w2.
Proof.
  intros Hw Hfl Hs Hh.
  destruct (loadImage_later f w image Hw Hs Hfl)
    as (w1 & Hl & _ & _ & Hw1 & Hi1 & Hrest).
  unfold FlowFilter.buffers in Hrest. cbn [tail] in Hrest.
  rewrite !Forall_cons in Hrest. destruct Hrest as (_ & _ & _ & Hru & Hrs & _).
  destruct (compute_spec _ _ Hw1)
    as (img & s0 & u0 & w2 & Hi & Hs0 & Hu0 & Hc & _ & _ & _ & _
        & _ & _ & _ & _ & _ & _ & Hs2).
  rewrite Hi1 in Hi. injection Hi as <-.
  exists s0, u0, w1, w2.
  split; [by rewrite <- Hs0|]. split; [by rewrite <- Hu0|].
  split; [exact Hl|]. split; [exact Hc|]. cbv zeta. unfold FlowFilter.downloadFlow.
  apply download_ok; [exact Hh|]. exact Hs2.
Qed.

(** [setMaxFlow] within the range of [int]. *)
Lemma setMaxFlow_in_range (f : FlowFilter.t) (v : Float32.float) (q : Q) :
  Float32.is_float v = true -> Float32.to_Q v = Some q ->
  Float32.INT_MIN <= Qceiling q <= Float32.INT_MAX ->
  FlowFilter.getPropagationIterations (FlowFilter.setMaxFlow v f) = Qceiling q.
Proof.
  intros Hv Hq Hr.
  unfold FlowFilter.getPropagationIterations, FlowFilter.setMaxFlow.
  cbn [FlowFilter.__propagator FlowPropagator.getIterations
       FlowPropagator.setIterations FlowPropagator.iterations].
  unfold Float32.to_int. rewrite (Float32Facts.ceilf_exact v q Hv Hq).
  replace (Float32.INT_MIN <=? Qceiling q) with true
    by (symmetry; apply Z.leb_le; lia).
  by replace (Qceiling q <=? Float32.INT_MAX) with true
    by (symmetry; apply Z.leb_le; lia).
Qed.

(** X15.  For a finite [maxflow] whose ceiling fits an [int], the
    propagation count [n] that [setMaxFlow] derives brackets it:
    [n - 1 < maxflow <= n].  So a positive [maxflow] gives at least one
    propagation iteration, while zero or a negative [maxflow] gives a count
    that is not positive, which [setMaxFlow] passes on unchecked. *)
Theorem setMaxFlow_bracket (f : FlowFilter.t) (v : Float32.float) (q : Q) :
  Float32.is_float v = true -> Float32.to_Q v = Some q ->
  Float32.INT_MIN <= Qceiling q <= Float32.INT_MAX ->
  let n := FlowFilter.getPropagationIterations (FlowFilter.setMaxFlow v f) in
  Qlt (inject_Z (n - 1)) q /\ Qle q (inject_Z n)
  /\ (Qlt (inject_Z 0) q -> 1 <= n)
  /\ (Qle q (inject_Z 0) -> n <= 0).
Proof.
  intros Hv Hq Hr. cbv zeta. rewrite (setMaxFlow_in_range f v q Hv Hq Hr).
  split; [apply Qceiling_lt|]. split; [apply Qle_ceiling|]. split.
  - intros Hpos. pose proof (Qle_ceiling q) as Hle.
    pose proof (Qlt_le_trans _ _ _ Hpos Hle) as Hlt.
    rewrite <- Zlt_Qlt in Hlt. lia.
  - intros Hneg. apply Qceiling_resp_le in Hneg. by rewrite Qceiling_Z in Hneg.
Qed.

End Proofs.

(** * Closed instances on the sample device *)

(** Proves [FlowFilter.wired f w] for closed [f] and [w] by evaluation. *)
Ltac wired_by_computation :=
  split;
  [ reflexivity
  | repeat constructor
  | reflexivity | reflexivity | reflexivity | reflexivity | reflexivity | reflexivity
  | repeat constructor; vm_compute; eexists; reflexivity
  | apply (bool_decide_unpack _); vm_compute; exact I
  | vm_compute; reflexivity ].

Lemma compute_stage_sequence_witness :
  exists f w,
    FlowFilter.new (D := Sample.device) 2 2 1 Float32.one Float32.one
                   Sample.this Sample.boot = Ok f w
    /\ FlowFilter.wired f w
    /\ exists w',
         FlowFilter.compute (D := Sample.device) f w = Ok f w'
         /\ out w' = out w ++ [ StartTiming;
                                StageCompute ImageModelStage;
                                StageCompute FlowPropagatorStage;
                                StageCompute FlowUpdateStage;
                                StageCompute FlowSmootherStage;
                                StopTiming ]
         /\ brk w' = brk w.
Proof.
  eexists _, _. split; [vm_compute; reflexivity|].
  match goal with |- ?W /\ _ => assert W as Hw by wired_by_computation end.
  split; [exact Hw|].
  destruct (compute_stage_sequence (D := Sample.device) _ _ Hw)
    as (img & flow & old & w' & _ & _ & _ & Hc & Hout & Hbrk & _).
  exists w'. by repeat split.
Defined.

Lemma configure_zero_fills_witness :
  exists f w,
    FlowFilter.configure (D := Sample.device) Sample.sized Sample.boot = Ok f w
    /\ GPUImage.compareShape Sample.flow_buffer
         (FlowSmoother.getSmoothedFlow (FlowFilter.__smoother f)) = true
    /\ FlowFilter.__configured f = true
    /\ FlowFilter.__firstLoad f = true
    /\ exists r,
         FlowFilter.downloadFlow Sample.flow_buffer f w = Ok r w
         /\ Forall (fun b => b = Byte.x00) (image_t.data r).
Proof.
  destruct (configure_zero_fills (D := Sample.device) Sample.sized Sample.boot)
    as (f & w & Hc & _ & _ & _ & _ & Hconf & Hfl & Hd).
  exists f, w. split; [exact Hc|].
  assert (GPUImage.compareShape Sample.flow_buffer
            (FlowSmoother.getSmoothedFlow (FlowFilter.__smoother f)) = true) as Hs.
  { vm_compute in Hc. injection Hc as <- _. reflexivity. }
  split; [exact Hs|]. split; [exact Hconf|]. split; [exact Hfl|].
  exact (Hd Sample.flow_buffer Hs).
Defined.

Lemma loadImage_bootstrap_once_witness :
  exists f w,
    FlowFilter.new (D := Sample.device) 2 2 1 Float32.one Float32.one
                   Sample.this Sample.boot = Ok f w
    /\ FlowFilter.wired f w
    /\ GPUImage.compareShape Sample.frame (FlowFilter.__inputImage f) = true
    /\ FlowFilter.__firstLoad f = true
    /\ exists w1,
         FlowFilter.loadImage (D := Sample.device) Sample.frame f w
         = Ok (FlowFilter.set_firstLoad false f) w1
         /\ out w1 = out w ++ [ Cout "FlowFilter::loadImage(): fisrt load";
                                StageCompute ImageModelStage ]
         /\ FlowFilter.wired (FlowFilter.set_firstLoad false f) w1
         /\ exists w2,
              FlowFilter.loadImage (D := Sample.device) Sample.frame
                (FlowFilter.set_firstLoad false f) w1
              = Ok (FlowFilter.set_firstLoad false f) w2
              /\ out w2 = out w1
              /\ exists f3 w3,
                   FlowFilter.run (D := Sample.device)
                     [ FlowFilter.LoadImage Sample.frame; FlowFilter.Compute;
                       FlowFilter.LoadImage Sample.frame ] f w = Ok f3 w3
                   /\ FlowFilter.__firstLoad f3 = false
                   /\ (FlowFilter.bootstraps (out w3)
                       + Nat.b2n (FlowFilter.__firstLoad f3)
                       = FlowFilter.bootstraps (out Sample.boot) + 1)%nat.
Proof.
  destruct (loadImage_bootstrap_once (D := Sample.device)) as [HA HB].
  eexists _, _.
  match goal with |- ?N /\ _ => assert N as Hnew by (vm_compute; reflexivity) end.
  split; [exact Hnew|].
  match goal with |- ?W /\ _ => assert W as Hw by wired_by_computation end.
  split; [exact Hw|]. do 2 (split; [reflexivity|]).
  destruct (HA _ _ Sample.frame Hw eq_refl) as [H1 _].
  destruct (H1 eq_refl) as (w1 & Hl & _ & Hout & _).
  exists w1. split; [exact Hl|]. split; [exact Hout|].
  match goal with |- ?W /\ _ =>
    assert W as Hw1
      by (vm_compute in Hl; injection Hl as <-; wired_by_computation) end.
  split; [exact Hw1|].
  destruct (HA _ _ Sample.frame Hw1 eq_refl) as [_ H2].
  destruct (H2 eq_refl) as (w2 & Hl2 & Hout2 & _).
  exists w2. split; [exact Hl2|]. split; [exact Hout2|].
  eexists _, _.
  match goal with |- ?R /\ _ => assert R as Hrun by (vm_compute; reflexivity) end.
  split; [exact Hrun|].
  exact (HB _ _ _ _ _ _ _ _ _ _ _ _ Hnew Hrun).
Defined.

Lemma setMaxFlow_derives_iterations_witness :
  (Float32.is_float Sample.three_and_a_half = true
   /\ Float32.to_Q Sample.three_and_a_half = Some (Qmake 14680064 4194304)
   /\ Float32.INT_MIN <= Qceiling (Qmake 14680064 4194304) <= Float32.INT_MAX
   /\ FlowFilter.getPropagationIterations
        (FlowFilter.setMaxFlow Sample.three_and_a_half Sample.this) = 4)
  /\ ((forall v, FlowFilter.SetGamma Sample.half <> FlowFilter.SetMaxFlow v)
      /\ FlowFilter.invoke (D := Sample.device) (FlowFilter.SetGamma Sample.half)
           Sample.this Sample.boot
         = Ok (FlowFilter.setGamma Sample.half Sample.this)
              (World ∅ 1%positive [StageSet FlowUpdateStage (Gamma Sample.half)])
      /\ FlowFilter.getPropagationIterations
           (FlowFilter.setGamma Sample.half Sample.this)
         = FlowFilter.getPropagationIterations Sample.this)
  /\ exists f0 w1 f w,
       FlowFilter.new (D := Sample.device) 2 2 2 Sample.four Sample.half
                      Sample.this Sample.boot = Ok f0 w1
       /\ FlowFilter.run (D := Sample.device)
            [ FlowFilter.LoadImage Sample.frame; FlowFilter.Compute;
              FlowFilter.SetMaxFlow Sample.three_and_a_half ] f0 w1 = Ok f w
       /\ FlowFilter.getPropagationIterations f0 = 4
       /\ FlowFilter.getPropagationIterations f
          = Float32.to_int (Float32.ceilf (FlowFilter.getMaxFlow f)).
Proof.
  destruct (setMaxFlow_derives_iterations (D := Sample.device)) as (H1 & H2 & H3).
  split; [|split].
  - assert (Float32.INT_MIN <= Qceiling (Qmake 14680064 4194304) <= Float32.INT_MAX) as Hr
      by (vm_compute; split; discriminate).
    do 2 (split; [reflexivity|]). split; [exact Hr|].
    exact (proj1 (H1 Sample.this Sample.three_and_a_half (Qmake 14680064 4194304)
                     eq_refl eq_refl Hr)).
  - assert (forall v, FlowFilter.SetGamma Sample.half <> FlowFilter.SetMaxFlow v) as Hne
      by discriminate.
    split; [exact Hne|]. split; [reflexivity|].
    exact (H2 (FlowFilter.SetGamma Sample.half) Sample.this _ Sample.boot _
              Hne eq_refl).
  - eexists _, _, _, _.
    match goal with |- ?N /\ _ => assert N as Hnew by (vm_compute; reflexivity) end.
    split; [exact Hnew|].
    match goal with |- ?R /\ _ => assert R as Hrun by (vm_compute; reflexivity) end.
    split; [exact Hrun|]. split; [reflexivity|].
    exact (H3 _ _ _ _ _ _ _ _ _ _ _ _ Hnew Hrun).
Defined.

(** C4 does not extend to [v] = 2^31, even on an instance the constructor
    built: the ceiling of [v] is 2147483648, which no [int] holds, and the
    count read back is [INT_MIN]. *)
Lemma setMaxFlow_ceil_counterexample :
  exists f w,
    FlowFilter.new (D := Sample.device) 4 4 2 Sample.four Sample.half
                   Sample.this Sample.boot = Ok f w
    /\ Float32.is_float Sample.two_pow_31 = true
    /\ Float32.to_Q Sample.two_pow_31 = Some (inject_Z 2147483648)
    /\ Qceiling (inject_Z 2147483648) = 2147483648
    /\ FlowFilter.getPropagationIterations
         (FlowFilter.setMaxFlow Sample.two_pow_31 f) = -2147483648
    /\ FlowFilter.getPropagationIterations
         (FlowFilter.setMaxFlow Sample.two_pow_31 f)
       <> Qceiling (inject_Z 2147483648).
Proof.
  eexists _, _. split; [vm_compute; reflexivity|].
  vm_compute. repeat split; discriminate.
Qed.

Lemma constructor_validates_dimensions_witness :
  (0 <= 0 \/ 5 <= 0)
  /\ (exists msg n,
        FlowFilter.new (D := Sample.device) 0 5 1 Float32.one Float32.one
                       Sample.this Sample.boot
        = Throw ConstructionError (World ∅ 1%positive [Cerr msg n]))
  /\ 0 < 4
  /\ exists f w,
       FlowFilter.new (D := Sample.device) 4 4 2 Sample.four Sample.half
                      Sample.this Sample.boot = Ok f w
       /\ FlowFilter.height f = 4 /\ FlowFilter.width f = 4
       /\ FlowFilter.wired f w.
Proof.
  assert (0 <= 0 \/ 5 <= 0) as Hd by (left; lia).
  assert (0 < 4) as Hp by lia.
  split; [exact Hd|].
  split; [exact (proj1 (constructor_validates_dimensions (D := Sample.device)
                          0 5 1 Float32.one Float32.one Sample.this Sample.boot) Hd)|].
  split; [exact Hp|].
  exact (proj2 (constructor_validates_dimensions (D := Sample.device)
                  4 4 2 Sample.four Sample.half Sample.this Sample.boot) Hp Hp).
Defined.

Lemma loadImage_shape_mismatch_witness :
  exists f w,
    FlowFilter.new (D := Sample.device) 2 2 1 Float32.one Float32.one
                   Sample.this Sample.boot = Ok f w
    /\ FlowFilter.wired f w
    /\ (image_t.height Sample.wide_frame <> FlowFilter.height f
        \/ image_t.width Sample.wide_frame <> FlowFilter.width f)
    /\ FlowFilter.__firstLoad f = true
    /\ FlowFilter.loadImage (D := Sample.device) Sample.wide_frame f w
       = Throw ShapeMismatch w.
Proof.
  eexists _, _. split; [vm_compute; reflexivity|].
  match goal with |- ?W /\ _ => assert W as Hw by wired_by_computation end.
  split; [exact Hw|].
  match goal with |- ?S /\ _ => assert S as Hs by (right; discriminate) end.
  split; [exact Hs|]. split; [reflexivity|].
  exact (loadImage_shape_mismatch (D := Sample.device) _ _ Sample.wide_frame Hw Hs).
Defined.

Lemma getFlow_downloadFlow_distinct_witness :
  exists f w,
    FlowFilter.new (D := Sample.device) 2 2 1 Float32.one Float32.one
                   Sample.this Sample.boot = Ok f w
    /\ FlowFilter.wired f w
    /\ GPUImage.ptr_dev (FlowFilter.getFlow f) = Some 5%positive
    /\ GPUImage.ptr_dev (FlowSmoother.getSmoothedFlow (FlowFilter.__smoother f))
       = Some 7%positive
    /\ exists (au asm : addr) (bu bsm : bytes),
         GPUImage.ptr_dev (FlowFilter.getFlow f) = Some au
         /\ GPUImage.ptr_dev (FlowSmoother.getSmoothedFlow (FlowFilter.__smoother f))
            = Some asm
         /\ au <> asm
         /\ devmem w !! au = Some bu /\ devmem w !! asm = Some bsm
         /\ forall flow : image_t.t,
              GPUImage.compareShape flow
                (FlowSmoother.getSmoothedFlow (FlowFilter.__smoother f)) = true ->
              FlowFilter.downloadFlow flow f w = Ok (image_t.with_data bsm flow) w.
Proof.
  eexists _, _. split; [vm_compute; reflexivity|].
  match goal with |- ?W /\ _ => assert W as Hw by wired_by_computation end.
  split; [exact Hw|]. do 2 (split; [reflexivity|]).
  exact (proj2 (proj2 (getFlow_downloadFlow_distinct _ _ Hw))).
Defined.

Lemma constructor_applies_setters_witness :
  (0 < 4
   /\ exists f w,
        FlowFilter.new (D := Sample.device) 4 4 2 Sample.four Sample.half
                       Sample.this Sample.boot = Ok f w
        /\ out w = [ StageSet FlowUpdateStage (Gamma Sample.half);
                     StageSet FlowUpdateStage (MaxFlow Sample.four);
                     StageSet FlowPropagatorStage (Iterations 4);
                     StageSet FlowSmootherStage (Iterations 2) ]
        /\ FlowFilter.parameters f = (Sample.half, Sample.four, 2)
        /\ FlowFilter.getPropagationIterations f = 4)
  /\ (FlowFilter.SetMaxFlow Sample.four
      ∈ [ FlowFilter.SetGamma Sample.half; FlowFilter.SetMaxFlow Sample.four;
          FlowFilter.SetSmoothIterations 2 ]
      /\ exists f1 w1 w2,
           FlowFilter.invoke (D := Sample.device) (FlowFilter.SetMaxFlow Sample.four)
             Sample.this Sample.boot = Ok f1 w1
           /\ FlowFilter.invoke (D := Sample.device) (FlowFilter.SetMaxFlow Sample.four)
                f1 w1 = Ok f1 w2
           /\ FlowFilter.getMaxFlow f1 = Sample.four
           /\ FlowFilter.getPropagationIterations f1 = 4)
  /\ ([ FlowFilter.SetSmoothIterations 2; FlowFilter.SetGamma Sample.half;
        FlowFilter.SetMaxFlow Sample.four ]
      ≡ₚ [ FlowFilter.SetGamma Sample.half; FlowFilter.SetMaxFlow Sample.four;
           FlowFilter.SetSmoothIterations 2 ]
      /\ exists f' w',
           FlowFilter.run (D := Sample.device)
             [ FlowFilter.SetSmoothIterations 2; FlowFilter.SetGamma Sample.half;
               FlowFilter.SetMaxFlow Sample.four ] Sample.this Sample.boot = Ok f' w'
           /\ FlowFilter.parameters f' = (Sample.half, Sample.four, 2)
           /\ FlowFilter.getPropagationIterations f' = 4).
Proof.
  destruct (constructor_applies_setters (D := Sample.device)) as (H1 & H2 & H3).
  split; [|split].
  - assert (0 < 4) as Hp by lia. split; [exact Hp|].
    destruct (H1 4 4 2 Sample.four Sample.half Sample.this Sample.boot Hp Hp)
      as (f0 & w1 & f & w & Hc & Hn & Hout & _ & _ & _ & Hpar & Hi & _).
    exists f, w. split; [exact Hn|].
    assert (out w1 = []) as Ho1 by (vm_compute in Hc; by injection Hc as _ <-).
    rewrite Ho1 in Hout. split; [exact Hout|]. split; [exact Hpar|exact Hi].
  - match goal with |- ?E /\ _ =>
      assert E as He by apply list_elem_of_further, list_elem_of_here end.
    split; [exact He|].
    destruct (H2 Sample.this Sample.boot 2 Sample.four Sample.half _ He)
      as (f1 & w1 & w2 & Hi1 & Hi2 & Hpar & _).
    exists f1, w1, w2. split; [exact Hi1|]. split; [exact Hi2|].
    vm_compute in Hi1. injection Hi1 as <- _. split; reflexivity.
  - match goal with |- ?P /\ _ =>
      assert P as Hp
        by exact (Permutation_cons_append
                    [FlowFilter.SetGamma Sample.half; FlowFilter.SetMaxFlow Sample.four]
                    (FlowFilter.SetSmoothIterations 2)) end.
    split; [exact Hp|].
    destruct (H3 Sample.this Sample.boot 2 Sample.four Sample.half _ Hp)
      as (f' & w' & Hr & _ & Hpar & Hi & _).
    exists f', w'. split; [exact Hr|]. split; [exact Hpar|exact Hi].
Defined.

(** The end-to-end scenario of the spec, up to the parameters. *)
Example new_parameters :
  exists f w,
    FlowFilter.new (D := Sample.device) 4 4 2 Sample.four Sample.half
                   Sample.this Sample.boot = Ok f w
    /\ FlowFilter.getPropagationIterations f = 4
    /\ FlowFilter.getSmoothIterations f = 2
    /\ FlowFilter.getGamma f = Sample.half
    /\ FlowFilter.height f = 4 /\ FlowFilter.width f = 4.
Proof. eexists _, _. split; [vm_compute; reflexivity|]. by repeat split. Qed.

Example new_hw_defaults :
  exists f w,
    FlowFilter.new_hw (D := Sample.device) 4 4 Sample.this Sample.boot = Ok f w
    /\ FlowFilter.getGamma f = Float32.one
    /\ FlowFilter.getMaxFlow f = Float32.one
    /\ FlowFilter.getSmoothIterations f = 1
    /\ FlowFilter.getPropagationIterations f = 1.
Proof. eexists _, _. split; [vm_compute; reflexivity|]. by repeat split. Qed.

(** The log of construction and one frame: load, then compute. *)
Example first_frame_log :
  exists f0 w0 f w,
    FlowFilter.new (D := Sample.device) 2 2 1 Float32.one Float32.one
                   Sample.this Sample.boot = Ok f0 w0
    /\ FlowFilter.run (D := Sample.device)
         [FlowFilter.LoadImage Sample.frame; FlowFilter.Compute] f0 w0 = Ok f w
    /\ out w = [ StageSet FlowUpdateStage (Gamma Float32.one);
                 StageSet FlowUpdateStage (MaxFlow Float32.one);
                 StageSet FlowPropagatorStage (Iterations 1);
                 StageSet FlowSmootherStage (Iterations 1);
                 Cout "FlowFilter::loadImage(): fisrt load";
                 StageCompute ImageModelStage;
                 StartTiming;
                 StageCompute ImageModelStage;
                 StageCompute FlowPropagatorStage;
                 StageCompute FlowUpdateStage;
                 StageCompute FlowSmootherStage;
                 StopTiming ]
    /\ GPUImage.contents (FlowUpdate.getUpdatedImage (FlowFilter.__update f)) w
       = Some (image_t.data Sample.frame).
Proof.
  eexists _, _, _, _. split; [vm_compute; reflexivity|].
  split; [vm_compute; reflexivity|]. split; vm_compute; reflexivity.
Qed.

Example new_rejects_bad_dimensions :
  Forall (fun '(h, wd) =>
            exists w, FlowFilter.new (D := Sample.device) h wd 1 Float32.one Float32.one
                        Sample.this Sample.boot = Throw ConstructionError w)
         [(0, 5); (-1, -1); (5, 0)].
Proof. repeat constructor; eexists; reflexivity. Qed.

(** [int(ceilf(x))] on a few floats: 1.0, 0.5, 3.5, -3.5, -0.5, and the
    arguments no [int] is the ceiling of. *)
Example ceilf_one : Float32.ceilf Float32.one = Float32.one.
Proof. reflexivity. Qed.

Example to_int_ceilf_values :
  Float32.to_int (Float32.ceilf Float32.one) = 1
  /\ Float32.to_int (Float32.ceilf Sample.half) = 1
  /\ Float32.to_int (Float32.ceilf Sample.three_and_a_half) = 4
  /\ Float32.to_int (Float32.ceilf (SFopp Sample.three_and_a_half)) = -3
  /\ Float32.ceilf (SFopp Sample.half) = S754_zero true
  /\ Float32.to_int (Float32.ceilf (SFopp Sample.two_pow_31)) = -2147483648.
Proof. vm_compute. by repeat split. Qed.

Example to_int_out_of_range :
  Float32.to_int (Float32.ceilf S754_nan) = Float32.INT_MIN
  /\ Float32.to_int (Float32.ceilf (S754_infinity false)) = Float32.INT_MIN
  /\ Float32.to_int (Float32.ceilf Sample.two_pow_31) = Float32.INT_MIN.
Proof. vm_compute. by repeat split. Qed.

(** ** Closed instances of the further properties *)

Lemma run_never_reallocates_witness :
  exists f w f' w',
    FlowFilter.new (D := Sample.device) 2 2 1 Float32.one Float32.one
                   Sample.this Sample.boot = Ok f w
    /\ FlowFilter.run (D := Sample.device)
         [ FlowFilter.LoadImage Sample.frame; FlowFilter.Compute;
           FlowFilter.SetMaxFlow Sample.four; FlowFilter.LoadImage Sample.frame2;
           FlowFilter.Compute; FlowFilter.DownloadFlow Sample.flow_buffer ] f w
       = Ok f' w'
    /\ no_alloc w w'
    /\ FlowFilter.buffers f' = FlowFilter.buffers f
    /\ FlowFilter.height f' = 2 /\ FlowFilter.width f' = 2
    /\ brk w' = 9%positive.
Proof.
  eexists _, _, _, _. split; [vm_compute; reflexivity|].
  match goal with |- ?R /\ _ => assert R as Hrun by (vm_compute; reflexivity) end.
  split; [exact Hrun|].
  destruct (run_never_reallocates (D := Sample.device) _ _ _ _ _ Hrun)
    as (Ha & Hb & Hh & Hw & _).
  split; [exact Ha|]. split; [exact Hb|]. split; [exact Hh|]. split; [exact Hw|].
  reflexivity.
Defined.

Lemma run_parameters_witness :
  exists f w f' w',
    FlowFilter.new (D := Sample.device) 2 2 2 Sample.four Sample.half
                   Sample.this Sample.boot = Ok f w
    /\ FlowFilter.run (D := Sample.device)
         [ FlowFilter.SetGamma Float32.one; FlowFilter.LoadImage Sample.frame;
           FlowFilter.SetGamma Sample.three_and_a_half; FlowFilter.Compute;
           FlowFilter.SetSmoothIterations 5 ] f w = Ok f' w'
    /\ FlowFilter.parameters f' = (Sample.three_and_a_half, Sample.four, 5).
Proof.
  eexists _, _, _, _. split; [vm_compute; reflexivity|].
  match goal with |- ?R /\ _ => assert R as Hrun by (vm_compute; reflexivity) end.
  split; [exact Hrun|].
  exact (run_parameters (D := Sample.device) _ _ _ _ _ Hrun).
Defined.

Lemma configure_forgets_witness :
  FlowFilter.height Sample.sized
  = FlowFilter.height (FlowFilter.setGamma Sample.half
                         (FlowFilter.setMaxFlow Sample.four Sample.sized))
  /\ exists f' w',
       FlowFilter.configure (D := Sample.device) Sample.sized Sample.boot = Ok f' w'
       /\ FlowFilter.configure (D := Sample.device)
            (FlowFilter.setGamma Sample.half
               (FlowFilter.setMaxFlow Sample.four Sample.sized)) Sample.boot
          = Ok f' w'
       /\ FlowFilter.parameters f' = (Float32.one, Float32.one, 1)
       /\ FlowFilter.getPropagationIterations f' = 1
       /\ FlowFilter.__firstLoad f' = true.
Proof.
  split; [reflexivity|].
  exact (configure_forgets (D := Sample.device) Sample.sized
           (FlowFilter.setGamma Sample.half
              (FlowFilter.setMaxFlow Sample.four Sample.sized))
           Sample.boot eq_refl eq_refl).
Defined.

Lemma configure_releases_dummy_witness :
  exists f' w',
    FlowFilter.configure (D := Sample.device) Sample.sized Sample.boot = Ok f' w'
    /\ devmem Sample.boot !! 5%positive = None
    /\ is_Some (devmem w' !! 5%positive)
    /\ Some 5%positive ∈ (GPUImage.ptr_dev <$> FlowFilter.buffers f')
    /\ (Some 4%positive ∉ (GPUImage.ptr_dev <$> FlowFilter.buffers f'))
    /\ devmem w' !! 4%positive = None
    /\ brk w' = 9%positive.
Proof.
  destruct (configure_releases_dummy (D := Sample.device) Sample.sized Sample.boot)
    as (f' & w' & Hc & _ & Hleak & _).
  exists f', w'. split; [exact Hc|]. split; [reflexivity|].
  assert (is_Some (devmem w' !! 5%positive)) as Hlive
    by (vm_compute in Hc; injection Hc as _ <-; eexists; vm_compute; reflexivity).
  split; [exact Hlive|].
  split; [exact (Hleak 5%positive eq_refl Hlive)|].
  assert (Some 4%positive ∉ (GPUImage.ptr_dev <$> FlowFilter.buffers f')) as Hnot
    by (vm_compute in Hc; injection Hc as <- _;
        apply (bool_decide_unpack _); vm_compute; exact I).
  split; [exact Hnot|]. split.
  - destruct (devmem w' !! 4%positive) as [b|] eqn:E; [|reflexivity].
    destruct Hnot. apply Hleak; [reflexivity|]. exists b. exact E.
  - vm_compute in Hc. by injection Hc as _ <-.
Defined.

Lemma new_hw_is_configure_witness :
  (0 < 2
   /\ exists f w,
        FlowFilter.configure (D := Sample.device) Sample.sized Sample.boot = Ok f w
        /\ FlowFilter.new_hw (D := Sample.device) 2 2 Sample.this Sample.boot
           = Ok f (World (devmem w) (brk w)
                     (out w ++ [ StageSet FlowUpdateStage (Gamma Float32.one);
                                 StageSet FlowUpdateStage (MaxFlow Float32.one);
                                 StageSet FlowPropagatorStage (Iterations 1);
                                 StageSet FlowSmootherStage (Iterations 1) ])))
  /\ ((0 <= 0 \/ 5 <= 0)
      /\ exists w, FlowFilter.new_hw (D := Sample.device) 0 5 Sample.this Sample.boot
                   = Throw ConstructionError w
                   /\ no_alloc Sample.boot w).
Proof.
  assert (0 < 2) as Hp by lia.
  assert (0 <= 0 \/ 5 <= 0) as Hn by (left; lia).
  split.
  - split; [exact Hp|].
    exact (proj1 (new_hw_is_configure (D := Sample.device) 2 2 Sample.this Sample.boot)
             Hp Hp).
  - split; [exact Hn|].
    exact (proj2 (new_hw_is_configure (D := Sample.device) 0 5 Sample.this Sample.boot)
             Hn).
Defined.

Lemma new_reads_back_witness :
  exists f w,
    FlowFilter.new (D := Sample.device) 4 4 2 Sample.four Sample.half
                   Sample.this Sample.boot = Ok f w
    /\ FlowFilter.parameters f = (Sample.half, Sample.four, 2)
    /\ FlowFilter.getPropagationIterations f = 4
    /\ FlowFilter.height f = 4 /\ FlowFilter.width f = 4
    /\ out w = [ StageSet FlowUpdateStage (Gamma Sample.half);
                 StageSet FlowUpdateStage (MaxFlow Sample.four);
                 StageSet FlowPropagatorStage (Iterations 4);
                 StageSet FlowSmootherStage (Iterations 2) ]
    /\ brk w = 9%positive.
Proof.
  eexists _, _.
  match goal with |- ?N /\ _ => assert N as Hnew by (vm_compute; reflexivity) end.
  split; [exact Hnew|].
  destruct (new_reads_back (D := Sample.device) _ _ _ _ _ _ _ _ _ Hnew)
    as (Hp & Hi & Hh & Hw & _ & _ & _ & Ho & Hb).
  split; [exact Hp|]. split; [exact Hi|]. split; [exact Hh|]. split; [exact Hw|].
  split; [exact Ho|exact Hb].
Defined.

Lemma compute_twice_feeds_back_witness :
  exists f w,
    FlowFilter.new (D := Sample.device) 2 2 1 Float32.one Float32.one
                   Sample.this Sample.boot = Ok f w
    /\ FlowFilter.wired f w
    /\ exists w1 w2,
         FlowFilter.compute (D := Sample.device) f w = Ok f w1
         /\ FlowFilter.compute (D := Sample.device) f w1 = Ok f w2
         /\ out w2 = out w ++ cycle_log ++ cycle_log.
Proof.
  eexists _, _. split; [vm_compute; reflexivity|].
  match goal with |- ?W /\ _ => assert W as Hw by wired_by_computation end.
  split; [exact Hw|].
  destruct (compute_twice_feeds_back (D := Sample.device) _ _ Hw)
    as (? & ? & ? & w1 & w2 & H1 & H2 & Ho & _).
  exists w1, w2. split; [exact H1|]. split; [exact H2|]. exact Ho.
Defined.

Lemma loadImage_twice_witness :
  exists f w,
    FlowFilter.new (D := Sample.device) 2 2 1 Float32.one Float32.one
                   Sample.this Sample.boot = Ok f w
    /\ FlowFilter.wired f w
    /\ FlowFilter.__firstLoad f = true
    /\ GPUImage.compareShape Sample.frame (FlowFilter.__inputImage f) = true
    /\ GPUImage.compareShape Sample.frame2 (FlowFilter.__inputImage f) = true
    /\ exists w1 w2,
         FlowFilter.loadImage (D := Sample.device) Sample.frame f w
         = Ok (FlowFilter.set_firstLoad false f) w1
         /\ FlowFilter.loadImage (D := Sample.device) Sample.frame2
              (FlowFilter.set_firstLoad false f) w1
            = Ok (FlowFilter.set_firstLoad false f) w2
         /\ GPUImage.contents (FlowFilter.__inputImage f) w2
            = Some (image_t.data Sample.frame2)
         /\ GPUImage.contents (FlowUpdate.getUpdatedImage (FlowFilter.__update f)) w2
            = Some (image_t.data Sample.frame).
Proof.
  eexists _, _. split; [vm_compute; reflexivity|].
  match goal with |- ?W /\ _ => assert W as Hw by wired_by_computation end.
  split; [exact Hw|]. do 3 (split; [reflexivity|]).
  destruct (loadImage_twice (D := Sample.device) _ _ Sample.frame Sample.frame2
              Hw eq_refl eq_refl eq_refl)
    as (w1 & w2 & H1 & H2 & _ & Hi & Hu & _).
  exists w1, w2. split; [exact H1|]. split; [exact H2|]. split; [exact Hi|]. exact Hu.
Defined.

Lemma downloadImage_after_first_load_witness :
  exists f w,
    FlowFilter.new (D := Sample.device) 2 2 1 Float32.one Float32.one
                   Sample.this Sample.boot = Ok f w
    /\ FlowFilter.wired f w
    /\ FlowFilter.__firstLoad f = true
    /\ GPUImage.compareShape Sample.frame (FlowFilter.__inputImage f) = true
    /\ GPUImage.compareShape Sample.image_buffer
         (FlowUpdate.getUpdatedImage (FlowFilter.__update f)) = true
    /\ exists w1,
         FlowFilter.loadImage (D := Sample.device) Sample.frame f w
         = Ok (FlowFilter.set_firstLoad false f) w1
         /\ FlowFilter.downloadImage Sample.image_buffer
              (FlowFilter.set_firstLoad false f) w1
            = Ok (image_t.with_data (image_t.data Sample.frame) Sample.image_buffer) w1.
Proof.
  eexists _, _. split; [vm_compute; reflexivity|].
  match goal with |- ?W /\ _ => assert W as Hw by wired_by_computation end.
  split; [exact Hw|]. do 3 (split; [reflexivity|]).
  exact (downloadImage_after_first_load (D := Sample.device) _ _
           Sample.frame Sample.image_buffer Hw eq_refl eq_refl eq_refl).
Defined.

Lemma compute_before_first_load_witness :
  exists f w,
    FlowFilter.new (D := Sample.device) 2 2 1 Float32.one Float32.one
                   Sample.this Sample.boot = Ok f w
    /\ FlowFilter.wired f w
    /\ FlowFilter.__firstLoad f = true
    /\ GPUImage.compareShape Sample.frame (FlowFilter.__inputImage f) = true
    /\ exists w1 w2,
         FlowFilter.compute (D := Sample.device) f w = Ok f w1
         /\ FlowFilter.loadImage (D := Sample.device) Sample.frame f w1
            = Ok (FlowFilter.set_firstLoad false f) w2
         /\ GPUImage.contents (FlowUpdate.getUpdatedImage (FlowFilter.__update f)) w2
            = Some (image_t.data Sample.frame).
Proof.
  eexists _, _. split; [vm_compute; reflexivity|].
  match goal with |- ?W /\ _ => assert W as Hw by wired_by_computation end.
  split; [exact Hw|]. do 2 (split; [reflexivity|]).
  destruct (compute_before_first_load (D := Sample.device) _ _ Sample.frame
              Hw eq_refl eq_refl)
    as (w1 & w2 & H1 & H2 & _ & Hu).
  exists w1, w2. split; [exact H1|]. split; [exact H2|]. exact Hu.
Defined.

Lemma first_frame_flow_witness :
  exists f w,
    FlowFilter.new (D := Sample.device) 2 2 1 Float32.one Float32.one
                   Sample.this Sample.boot = Ok f w
    /\ FlowFilter.wired f w
    /\ FlowFilter.__firstLoad f = true
    /\ GPUImage.compareShape Sample.frame (FlowFilter.__inputImage f) = true
    /\ GPUImage.compareShape Sample.flow_buffer
         (FlowSmoother.getSmoothedFlow (FlowFilter.__smoother f)) = true
    /\ exists w1 w2 r,
         FlowFilter.loadImage (D := Sample.device) Sample.frame f w
         = Ok (FlowFilter.set_firstLoad false f) w1
         /\ FlowFilter.compute (D := Sample.device)
              (FlowFilter.set_firstLoad false f) w1
            = Ok (FlowFilter.set_firstLoad false f) w2
         /\ FlowFilter.downloadFlow Sample.flow_buffer
              (FlowFilter.set_firstLoad false f) w2 = Ok r w2
         /\ image_t.data r = replicate 32 Byte.x00.
Proof.
  eexists _, _. split; [vm_compute; reflexivity|].
  match goal with |- ?W /\ _ => assert W as Hw by wired_by_computation end.
  split; [exact Hw|]. do 3 (split; [reflexivity|]).
  destruct (first_frame_flow (D := Sample.device) _ _ Sample.frame Sample.flow_buffer
              Hw eq_refl eq_refl eq_refl)
    as (s0 & w1 & w2 & Hs0 & H1 & H2 & Hd).
  exists w1, w2. eexists. split; [exact H1|]. split; [exact H2|].
  split; [exact Hd|].
  vm_compute in Hs0. injection Hs0 as <-. reflexivity.
Defined.

Lemma later_frame_flow_witness :
  exists f0 w0 f w,
    FlowFilter.new (D := Sample.device) 2 2 1 Float32.one Float32.one
                   Sample.this Sample.boot = Ok f0 w0
    /\ FlowFilter.run (D := Sample.device)
         [FlowFilter.LoadImage Sample.frame; FlowFilter.Compute] f0 w0 = Ok f w
    /\ FlowFilter.wired f w
    /\ FlowFilter.__firstLoad f = false
    /\ GPUImage.compareShape Sample.frame2 (FlowFilter.__inputImage f) = true
    /\ GPUImage.compareShape Sample.flow_buffer
         (FlowSmoother.getSmoothedFlow (FlowFilter.__smoother f)) = true
    /\ exists w1 w2 r,
         FlowFilter.loadImage (D := Sample.device) Sample.frame2 f w = Ok f w1
         /\ FlowFilter.compute (D := Sample.device) f w1 = Ok f w2
         /\ FlowFilter.downloadFlow Sample.flow_buffer f w2 = Ok r w2.
Proof.
  eexists _, _, _, _. split; [vm_compute; reflexivity|].
  split; [vm_compute; reflexivity|].
  match goal with |- ?W /\ _ => assert W as Hw by wired_by_computation end.
  split; [exact Hw|]. do 3 (split; [reflexivity|]).
  destruct (later_frame_flow (D := Sample.device) _ _ Sample.frame2 Sample.flow_buffer
              Hw eq_refl eq_refl eq_refl)
    as (s0 & u0 & w1 & w2 & _ & _ & H1 & H2 & Hd).
  exists w1, w2. eexists. split; [exact H1|]. split; [exact H2|]. exact Hd.
Defined.

Lemma setMaxFlow_bracket_witness :
  Float32.is_float Sample.three_and_a_half = true
  /\ Float32.to_Q Sample.three_and_a_half = Some (Qmake 14680064 4194304)
  /\ Float32.INT_MIN <= Qceiling (Qmake 14680064 4194304) <= Float32.INT_MAX
  /\ Qlt (inject_Z 0) (Qmake 14680064 4194304)
  /\ 1 <= FlowFilter.getPropagationIterations
            (FlowFilter.setMaxFlow Sample.three_and_a_half Sample.this).
Proof.
  assert (Float32.INT_MIN <= Qceiling (Qmake 14680064 4194304) <= Float32.INT_MAX)
    as Hr by (vm_compute; split; discriminate).
  assert (Qlt (inject_Z 0) (Qmake 14680064 4194304)) as Hpos by reflexivity.
  do 2 (split; [reflexivity|]). split; [exact Hr|]. split; [exact Hpos|].
  exact (proj1 (proj2 (proj2 (setMaxFlow_bracket Sample.this Sample.three_and_a_half
                                (Qmake 14680064 4194304) eq_refl eq_refl Hr)))
           Hpos).
Defined.
